(** * FTT.py: the feedback tracker test suite

    A shallow embedding of [src/FTT.py], the [unittest] case
    [TestFeedbackTracker], together with the part of Python it runs on:
    values and objects on a heap, attribute access, [MagicMock], the
    assertion methods, and the order in which [unittest.main] runs the
    class fixtures, the case fixtures and the test methods. *)

From Stdlib Require Import ZArith PrimFloat.
From stdpp Require Import gmap strings list fin_maps.

Local Open Scope string_scope.
Local Open Scope Z_scope.
Local Open Scope list_scope.

(** ** Values and objects *)

(** Immutable values: [None], [bool], [int] and [str]. *)
Inductive scalar :=
| SNone
| SBool (b : bool)
| SInt (z : Z)
| SStr (s : string).

(** A value is a scalar or a reference to an object on the heap. *)
Inductive pyval :=
| VScalar (c : scalar)
| VRef (l : positive).

Coercion VScalar : scalar >-> pyval.

#[global] Instance scalar_eq_dec : EqDecision scalar.
Proof. solve_decision. Defined.

#[global] Instance pyval_eq_dec : EqDecision pyval.
Proof. solve_decision. Defined.

(** A [MagicMock]: its child mocks by attribute name, the configured
    [return_value] ([None] while it is still the default), the
    [side_effect] when it is a sequence (the values not yet consumed) and
    the arguments of the calls made so far. *)
Record mock := Mock {
  mock_children : gmap string positive;
  mock_return_value : option pyval;
  mock_side_effect : option (list pyval);
  mock_calls : list (list pyval)
}.

Definition new_mock : mock := Mock ∅ None None [].

Inductive object :=
| ODict (d : gmap string scalar)
| OInstance (attrs : gmap string pyval)
| OMock (m : mock).

#[global] Instance mock_eq_dec : EqDecision mock.
Proof. solve_decision. Defined.

#[global] Instance object_eq_dec : EqDecision object.
Proof. solve_decision. Defined.

Inductive exn :=
| AssertionError
| AttributeError
| KeyError
| TypeError
| StopIteration.

#[global] Instance exn_eq_dec : EqDecision exn.
Proof. solve_decision. Defined.

(** What the run leaves behind for an observer: every access the code of
    FTT.py makes to a data attribute of the class, and the start and the
    end of every test. *)
Inductive event :=
| EClassWrite (name : string) (v : pyval)
| EClassRead (name : string)
| EStartTest (name : string)
| EStopTest (name : string).

#[global] Instance event_eq_dec : EqDecision event.
Proof. solve_decision. Defined.

(** The interpreter state: the heap, the data attributes the code of
    FTT.py gives the class [TestFeedbackTracker], the number of clock
    readings that code has taken, and the events so far, oldest first.
    What the runner keeps on the class for itself ([_classSetupFailed],
    [tearDown_exceptions]) is not part of [class_attrs]. *)
Record state := State {
  heap : gmap positive object;
  class_attrs : gmap string pyval;
  ticks : nat;
  log : list event
}.

Definition initial_state : state := State ∅ ∅ 0%nat [].

(** What the program cannot decide itself: the readings of [time.time()]
    and [sys.version_info].  [clock n] is the binary64 float that the
    n-th call the code of FTT.py makes to [time.time()] returns, in
    seconds; calls the runner may make on its own are not counted. *)
Record world := World {
  clock : nat → float;
  version_major : Z;
  version_minor : Z;
  version_micro : Z;
  version_releaselevel : string;
  version_serial : Z
}.

Definition sys_version_info (w : world) : list scalar :=
  [SInt (version_major w); SInt (version_minor w); SInt (version_micro w);
   SStr (version_releaselevel w); SInt (version_serial w)].

(** ** Computations that read and write the state and may raise *)

Inductive result (A : Type) :=
| Ok (a : A)
| Raise (e : exn).

Arguments Ok {A} a.
Arguments Raise {A} e.

Definition Py (A : Type) : Type := state → state * result A.

#[global] Instance Py_ret : MRet Py := λ A a s, (s, Ok a).

#[global] Instance Py_bind : MBind Py := λ A B f c s,
  match c s with
  | (s', Ok a) => f a s'
  | (s', Raise e) => (s', Raise e)
  end.

Definition raise {A : Type} (e : exn) : Py A := λ s, (s, Raise e).

(** [try c] never raises: it hands the exception of [c] to the caller. *)
Definition try {A : Type} (c : Py A) : Py (result A) := λ s,
  let (s', r) := c s in (s', Ok r).

Definition get_heap : Py (gmap positive object) := λ s, (s, Ok (heap s)).

Definition set_heap (h : gmap positive object) : Py unit := λ s,
  (State h (class_attrs s) (ticks s) (log s), Ok tt).

Definition emit (e : event) : Py unit := λ s,
  (State (heap s) (class_attrs s) (ticks s) (log s ++ [e]), Ok tt).

(** A new object gets an address no object has. *)
Definition alloc (o : object) : Py positive := λ s,
  let l := fresh (dom (heap s)) in
  (State (<[l:=o]> (heap s)) (class_attrs s) (ticks s) (log s), Ok l).

Definition store (l : positive) (o : object) : Py unit :=
  h ← get_heap; set_heap (<[l:=o]> h).

(** ** Python's operators on these values *)

(** [a == b] on scalars; [bool] is a subtype of [int]. *)
Definition scalar_eq (a b : scalar) : bool :=
  match a, b with
  | SNone, SNone => true
  | SBool x, SBool y => bool_decide (x = y)
  | SBool x, SInt y | SInt y, SBool x => bool_decide (Z.b2z x = y)
  | SInt x, SInt y => bool_decide (x = y)
  | SStr x, SStr y => bool_decide (x = y)
  | _, _ => false
  end.

(** [d1 == d2] on dicts: the same number of keys, and every key of [d1]
    is in [d2] with an equal value. *)
Definition dict_eq (d1 d2 : gmap string scalar) : bool :=
  bool_decide (size d1 = size d2) &&
  forallb (λ kv, match d2 !! kv.1 with
                 | Some v => scalar_eq kv.2 v
                 | None => false
                 end) (map_to_list d1).

(** [a == b] on the values of this model, which has no float and no
    object with an equality of its own making among its values: dicts
    compare by content; two test instances by [TestCase.__eq__], that is
    by the name of their test method; every other pair of objects by
    identity, which is what a [MagicMock] does by default. *)
Definition py_eq (h : gmap positive object) (a b : pyval) : bool :=
  match a, b with
  | VScalar x, VScalar y => scalar_eq x y
  | VRef l1, VRef l2 =>
      match h !! l1, h !! l2 with
      | Some (ODict d1), Some (ODict d2) => dict_eq d1 d2
      | Some (OInstance a1), Some (OInstance a2) =>
          match a1 !! "_testMethodName", a2 !! "_testMethodName" with
          | Some (VScalar n1), Some (VScalar n2) => scalar_eq n1 n2
          | _, _ => bool_decide (l1 = l2)
          end
      | _, _ => bool_decide (l1 = l2)
      end
  | _, _ => false
  end.

(** [bool(v)]. *)
Definition truthy (h : gmap positive object) (v : pyval) : bool :=
  match v with
  | VScalar SNone => false
  | VScalar (SBool b) => b
  | VScalar (SInt z) => negb (bool_decide (z = 0))
  | VScalar (SStr s) => negb (bool_decide (s = ""))
  | VRef l =>
      match h !! l with
      | Some (ODict d) => negb (bool_decide (size d = 0%nat))
      | _ => true
      end
  end.

(** [a >= b] on two scalars of one ordered type; [None] stands for the
    [TypeError] of an unordered pair. *)
Definition scalar_ge (a b : scalar) : option bool :=
  match a, b with
  | SInt x, SInt y => Some (bool_decide (y ≤ x)%Z)
  | SBool x, SInt y => Some (bool_decide (y ≤ Z.b2z x)%Z)
  | SInt x, SBool y => Some (bool_decide (Z.b2z y ≤ x)%Z)
  | SBool x, SBool y => Some (bool_decide (Z.b2z y ≤ Z.b2z x)%Z)
  | SStr x, SStr y => Some (bool_decide (String.leb y x = true))
  | _, _ => None
  end.

(** [a >= b] on tuples: the first pair of unequal items decides, and when
    there is none the longer tuple is the greater. *)
Fixpoint tuple_ge (a b : list scalar) : option bool :=
  match a, b with
  | _, [] => Some true
  | [], _ :: _ => Some false
  | x :: a', y :: b' =>
      if scalar_eq x y then tuple_ge a' b' else scalar_ge x y
  end.

(** ** Attributes, dict displays and subscripts *)

(** [TestFeedbackTracker.name = v]. *)
Definition class_setattr (name : string) (v : pyval) : Py unit := λ s,
  (State (heap s) (<[name:=v]> (class_attrs s)) (ticks s)
     (log s ++ [EClassWrite name v]), Ok tt).

(** [TestFeedbackTracker.name]. *)
Definition class_getattr (name : string) : Py pyval := λ s,
  match class_attrs s !! name with
  | Some v =>
      (State (heap s) (class_attrs s) (ticks s) (log s ++ [EClassRead name]),
       Ok v)
  | None => (s, Raise AttributeError)
  end.

(** [self.name]: the instance's own attribute, else the class's. *)
Definition getattr (self : positive) (name : string) : Py pyval :=
  h ← get_heap;
  match h !! self with
  | Some (OInstance attrs) =>
      match attrs !! name with
      | Some v => mret v
      | None => class_getattr name
      end
  | _ => raise AttributeError
  end.

(** [self.name = v]. *)
Definition setattr (self : positive) (name : string) (v : pyval) : Py unit :=
  h ← get_heap;
  match h !! self with
  | Some (OInstance attrs) => store self (OInstance (<[name:=v]> attrs))
  | _ => raise AttributeError
  end.

(** [{k1: v1, ..., kn: vn}]: a new dict, a later item replacing an earlier
    one of the same key. *)
Definition dict_display (items : list (string * scalar)) : Py pyval :=
  l ← alloc (ODict (foldl (λ d kv, <[kv.1:=kv.2]> d) ∅ items));
  mret (VRef l).

(** ** MagicMock *)

Definition MagicMock : Py positive := alloc (OMock new_mock).

Definition get_mock (l : positive) : Py mock :=
  h ← get_heap;
  match h !! l with
  | Some (OMock m) => mret m
  | _ => raise AttributeError
  end.

(** [m.name]: the child mock of that name, made on the first access. *)
Definition mock_attr (l : positive) (name : string) : Py positive :=
  m ← get_mock l;
  match mock_children m !! name with
  | Some c => mret c
  | None =>
      c ← MagicMock;
      store l (OMock (Mock (<[name:=c]> (mock_children m))
                        (mock_return_value m) (mock_side_effect m)
                        (mock_calls m)));;
      mret c
  end.

(** [m.return_value = v]. *)
Definition set_return_value (l : positive) (v : pyval) : Py unit :=
  m ← get_mock l;
  store l (OMock (Mock (mock_children m) (Some v) (mock_side_effect m)
                    (mock_calls m))).

(** [m.side_effect = [v1, ..., vn]]. *)
Definition set_side_effect (l : positive) (vs : list pyval) : Py unit :=
  m ← get_mock l;
  store l (OMock (Mock (mock_children m) (mock_return_value m) (Some vs)
                    (mock_calls m))).

(** [m(args)]: the call is recorded; a sequence [side_effect] hands out
    its next value and raises [StopIteration] once empty; otherwise the
    [return_value], which by default is a mock made on the first call. *)
Definition mock_call (l : positive) (args : list pyval) : Py pyval :=
  m ← get_mock l;
  let calls := mock_calls m ++ [args] in
  match mock_side_effect m with
  | Some (v :: rest) =>
      store l (OMock (Mock (mock_children m) (mock_return_value m)
                        (Some rest) calls));;
      mret v
  | Some [] =>
      store l (OMock (Mock (mock_children m) (mock_return_value m)
                        (Some []) calls));;
      raise StopIteration
  | None =>
      match mock_return_value m with
      | Some v =>
          store l (OMock (Mock (mock_children m) (Some v) None calls));;
          mret v
      | None =>
          c ← MagicMock;
          store l (OMock (Mock (mock_children m) (Some (VRef c)) None calls));;
          mret (VRef c)
      end
  end.

(** [v[key]] for a [str] key: a dict looks the key up, a [MagicMock] calls
    its [__getitem__] child, nothing else here is subscriptable. *)
Definition getitem (v : pyval) (key : string) : Py pyval :=
  match v with
  | VScalar _ => raise TypeError
  | VRef l =>
      h ← get_heap;
      match h !! l with
      | Some (ODict d) =>
          match d !! key with
          | Some x => mret (VScalar x)
          | None => raise KeyError
          end
      | Some (OMock _) =>
          f ← mock_attr l "__getitem__"; mock_call f [VScalar (SStr key)]
      | _ => raise TypeError
      end
  end.

(** ** The assertion methods of [unittest.TestCase] *)

(** Raise [AssertionError] unless [b]. *)
Definition fail_unless (b : bool) : Py unit := λ s,
  (s, if b then Ok tt else Raise AssertionError).

Definition assertEqual (first second : pyval) : Py unit :=
  h ← get_heap; fail_unless (py_eq h first second).

Definition assertNotEqual (first second : pyval) : Py unit :=
  h ← get_heap; fail_unless (negb (py_eq h first second)).

Definition assertIsNone (v : pyval) : Py unit :=
  fail_unless (bool_decide (v = VScalar SNone)).

Definition assertTrue (v : pyval) : Py unit :=
  h ← get_heap; fail_unless (truthy h v).

Definition assertFalse (v : pyval) : Py unit :=
  h ← get_heap; fail_unless (negb (truthy h v)).

(** On floats: [a < b] is the binary64 comparison, false on a NaN. *)
Definition assertLess (a b : float) : Py unit :=
  fail_unless (PrimFloat.ltb a b).

(** Comparing the tuples may itself raise. *)
Definition assertGreaterEqual (a b : list scalar) : Py unit := λ s,
  (s, match tuple_ge a b with
      | Some true => Ok tt
      | Some false => Raise AssertionError
      | None => Raise TypeError
      end).

(** ** [time] *)

(** [time.time()]: the next reading of the clock. *)
Definition time_time (w : world) : Py float := λ s,
  (State (heap s) (class_attrs s) (S (ticks s)) (log s), Ok (clock w (ticks s))).

(** [time.sleep(secs)] changes nothing the program holds; how long it
    took shows in the next reading of the clock. *)
Definition time_sleep (secs : float) : Py unit := mret tt.

(** ** The test case class *)

Module TestFeedbackTracker.

Definition setUpClass : Py unit :=
  class_setattr "database_connection" (SStr "Mock Database Connection").

Definition tearDownClass : Py unit :=
  class_setattr "database_connection" SNone.

Definition setUp (self : positive) : Py unit :=
  entry ← dict_display [("student_id", SInt 12345);
                        ("course", SStr "CS101");
                        ("feedback", SStr "Great course!")];
  setattr self "feedback_entry" entry.

Definition tearDown (self : positive) : Py unit :=
  setattr self "feedback_entry" SNone.

Definition test_add_feedback (self : positive) : Py unit :=
  entry ← getattr self "feedback_entry";
  course ← getitem entry "course";
  assertEqual course (SStr "CS101").

Definition test_remove_feedback (self : positive) : Py unit :=
  setattr self "feedback_entry" SNone;;
  entry ← getattr self "feedback_entry";
  assertIsNone entry.

Definition test_database_integration (self : positive) : Py unit :=
  mock_db ← MagicMock;
  f ← mock_attr mock_db "insert_feedback";
  set_return_value f (SBool true);;
  f ← mock_attr mock_db "insert_feedback";
  entry ← getattr self "feedback_entry";
  result ← mock_call f [entry];
  assertTrue result.

Definition test_feedback_retrieval (self : positive) : Py unit :=
  mock_db ← MagicMock;
  entry ← getattr self "feedback_entry";
  f ← mock_attr mock_db "get_feedback";
  set_return_value f entry;;
  f ← mock_attr mock_db "get_feedback";
  result ← mock_call f [VScalar (SInt 12345)];
  entry ← getattr self "feedback_entry";
  assertEqual result entry.

(** The times are binary64 floats, subtracted and compared as such;
    [0x1.999999999999ap-4] is the float Python reads [0.1] as, and [0.5]
    is a float as it stands. *)
Definition test_feedback_submission_time (w : world) (self : positive)
  : Py unit :=
  start_time ← time_time w;
  time_sleep 0x1.999999999999ap-4%float;;
  end_time ← time_time w;
  assertLess (PrimFloat.sub end_time start_time) 0.5%float.

Definition test_sql_injection_protection (self : positive) : Py unit :=
  let malicious_input := "DROP TABLE feedback; --" in
  mock_db ← MagicMock;
  f ← mock_attr mock_db "add_feedback";
  set_return_value f (SBool false);;
  f ← mock_attr mock_db "add_feedback";
  arg ← dict_display [("student_id", SInt 12345);
                      ("course", SStr "CS101");
                      ("feedback", SStr malicious_input)];
  result ← mock_call f [arg];
  assertFalse result.

Definition test_system_compatibility (w : world) (self : positive)
  : Py unit :=
  let python_version := sys_version_info w in
  assertGreaterEqual python_version [SInt 3; SInt 6].

Definition test_previous_bug_fix (self : positive) : Py unit :=
  mock_db ← MagicMock;
  f ← mock_attr mock_db "get_feedback";
  set_side_effect f [VScalar (SStr "Old Feedback");
                     VScalar (SStr "Fixed Feedback")];;
  f ← mock_attr mock_db "get_feedback";
  first_attempt ← mock_call f [VScalar (SInt 12345)];
  f ← mock_attr mock_db "get_feedback";
  second_attempt ← mock_call f [VScalar (SInt 12345)];
  assertNotEqual first_attempt second_attempt.

(** The test methods in the order the class body defines them. *)
Definition test_methods (w : world) : list (string * (positive → Py unit)) :=
  [("test_add_feedback", test_add_feedback);
   ("test_remove_feedback", test_remove_feedback);
   ("test_database_integration", test_database_integration);
   ("test_feedback_retrieval", test_feedback_retrieval);
   ("test_feedback_submission_time", test_feedback_submission_time w);
   ("test_sql_injection_protection", test_sql_injection_protection);
   ("test_system_compatibility", test_system_compatibility w);
   ("test_previous_bug_fix", test_previous_bug_fix)].

End TestFeedbackTracker.

(** ** The runner: [unittest.main] *)

(** What the runner needs of a [TestCase] class. *)
Record test_class := TestClass {
  cls_setUpClass : Py unit;
  cls_tearDownClass : Py unit;
  cls_setUp : positive → Py unit;
  cls_tearDown : positive → Py unit;
  cls_methods : list (string * (positive → Py unit))
}.

Definition FTT (w : world) : test_class :=
  TestClass TestFeedbackTracker.setUpClass TestFeedbackTracker.tearDownClass
    TestFeedbackTracker.setUp TestFeedbackTracker.tearDown
    (TestFeedbackTracker.test_methods w).

(** The loader takes the methods in the order of their names. *)
Fixpoint insert_by_name {A : Type} (t : string * A) (ts : list (string * A))
  : list (string * A) :=
  match ts with
  | [] => [t]
  | u :: ts' =>
      if String.leb t.1 u.1 then t :: ts else u :: insert_by_name t ts'
  end.

Definition getTestCaseNames (C : test_class)
  : list (string * (positive → Py unit)) :=
  foldr insert_by_name [] (cls_methods C).

(** One instance of the class per test method, all made before any runs.
    Of what [TestCase.__init__] gives an instance the model keeps the
    name of its test method, which is what [==] on instances reads. *)
Fixpoint make_instances (ts : list (string * (positive → Py unit)))
  : Py (list (string * (positive → Py unit) * positive)) :=
  match ts with
  | [] => mret []
  | t :: ts' =>
      self ← alloc (OInstance {[ "_testMethodName" := VScalar (SStr t.1) ]});
      rest ← make_instances ts';
      mret ((t, self) :: rest)
  end.

Definition loadTestsFromTestCase (C : test_class)
  : Py (list (string * (positive → Py unit) * positive)) :=
  make_instances (getTestCaseNames C).

Definition raised {A : Type} (r : result A) : list exn :=
  match r with
  | Ok _ => []
  | Raise e => [e]
  end.

(** [TestCase.run]: the case fixture around the test method.  A failing
    [setUp] skips the method and [tearDown]; otherwise [tearDown] runs
    whatever the method did.  The outcome is what was raised. *)
Definition run_case (C : test_class) (name : string)
    (method : positive → Py unit) (self : positive) : Py (list exn) :=
  emit (EStartTest name);;
  r ← try (cls_setUp C self);
  problems ← match r with
             | Raise e => mret [e]
             | Ok _ =>
                 r1 ← try (method self);
                 r2 ← try (cls_tearDown C self);
                 mret (raised r1 ++ raised r2)
             end;
  emit (EStopTest name);;
  mret problems.

Fixpoint run_cases (C : test_class)
    (ts : list (string * (positive → Py unit) * positive))
  : Py (list (string * list exn)) :=
  match ts with
  | [] => mret []
  | (name, method, self) :: ts' =>
      problems ← run_case C name method self;
      rest ← run_cases C ts';
      mret ((name, problems) :: rest)
  end.

(** [TestSuite.run]: the class fixture around the cases of the class.
    The runner's own bookkeeping on the class is left out (see [state]). *)
Definition run_suite (C : test_class) : Py (list (string * list exn)) :=
  ts ← loadTestsFromTestCase C;
  match ts with
  | [] => mret []
  | _ :: _ =>
      r ← try (cls_setUpClass C);
      match r with
      | Raise e => mret [("setUpClass", [e])]
      | Ok _ =>
          results ← run_cases C ts;
          r' ← try (cls_tearDownClass C);
          mret (results ++ match r' with
                           | Ok _ => []
                           | Raise e => [("tearDownClass", [e])]
                           end)
      end
  end.

(** [TestResult.wasSuccessful]: no failure and no error. *)
Definition wasSuccessful (results : list (string * list exn)) : bool :=
  forallb (λ r, bool_decide (r.2 = [])) results.

(** [unittest.main()] ends in [sys.exit(not result.wasSuccessful())]. *)
Definition main (w : world) (s : state) : state * Z :=
  match run_suite (FTT w) s with
  | (s', Ok results) => (s', if wasSuccessful results then 0 else 1)
  | (s', Raise _) => (s', 1)
  end.

Definition exit_status (w : world) : Z := (main w initial_state).2.

(** ** What the claims are stated with *)

(** The record [setUp] builds. *)
Definition feedback_fixture : gmap string scalar :=
  {[ "student_id" := SInt 12345;
     "course" := SStr "CS101";
     "feedback" := SStr "Great course!" ]}.

(** [frame s s']: every object of [s] is in [s'] as it was, and the class
    attributes and the events are those of [s]. *)
Definition frame (s s' : state) : Prop :=
  heap s ⊆ heap s' ∧ class_attrs s' = class_attrs s ∧ log s' = log s.

(** The state a test method starts in: [self.feedback_entry] refers to a
    dict holding the fixture. *)
Definition fixture_ready (self : positive) (s : state) : Prop :=
  ∃ attrs l,
    heap s !! self = Some (OInstance attrs) ∧
    attrs !! "feedback_entry" = Some (VRef l) ∧
    heap s !! l = Some (ODict feedback_fixture).

(** A test method that, started with the fixture in place, ends without
    having touched the class or the events, its instance still there. *)
Definition leaves_class_alone (method : positive → Py unit) : Prop :=
  ∀ self s, fixture_ready self s →
    ∃ s' r attrs',
      method self s = (s', r) ∧
      class_attrs s' = class_attrs s ∧ log s' = log s ∧
      heap s' !! self = Some (OInstance attrs').

(** The two assertions whose outcome the world decides. *)
Definition latency_ok (w : world) : bool :=
  PrimFloat.ltb (PrimFloat.sub (clock w 1) (clock w 0)) 0.5%float.

Definition version_ok (w : world) : bool :=
  if bool_decide (version_major w = 3)
  then bool_decide (6 ≤ version_minor w)
  else bool_decide (3 ≤ version_major w).

Definition latency_result (w : world) : result unit :=
  if latency_ok w then Ok tt else Raise AssertionError.

Definition version_result (w : world) : result unit :=
  match tuple_ge (sys_version_info w) [SInt 3; SInt 6] with
  | Some true => Ok tt
  | Some false => Raise AssertionError
  | None => Raise TypeError
  end.

(** The names of the checks in the order the loader runs them. *)
Definition check_names : list string :=
  ["test_add_feedback"; "test_database_integration";
   "test_feedback_retrieval"; "test_feedback_submission_time";
   "test_previous_bug_fix"; "test_remove_feedback";
   "test_sql_injection_protection"; "test_system_compatibility"].

(** What the whole run reports, check by check. *)
Definition suite_results (w : world) : list (string * list exn) :=
  match (run_suite (FTT w) initial_state).2 with
  | Ok results => results
  | Raise _ => []
  end.

(** The state of the whole run when the method of the [i]-th check is
    about to start, with the instance it runs on: the instances are
    loaded, [setUpClass] and the first [i] checks have run, and so has
    the [setUp] of this check. *)
Definition at_method_entry (w : world) (i : nat) : option (state * positive) :=
  match loadTestsFromTestCase (FTT w) initial_state with
  | (s0, Ok ts) =>
      match ts !! i with
      | Some (name, _, self) =>
          match (cls_setUpClass (FTT w);;
                 run_cases (FTT w) (take i ts);;
                 emit (EStartTest name);;
                 cls_setUp (FTT w) self) s0 with
          | (s, Ok _) => Some (s, self)
          | (_, Raise _) => None
          end
      | None => None
      end
  | (_, Raise _) => None
  end.

(** The dict [self.feedback_entry] refers to when the method of the
    [i]-th check starts. *)
Definition record_seen (w : world) (i : nat) : option positive :=
  match at_method_entry w i with
  | Some (s, self) =>
      match heap s !! self with
      | Some (OInstance attrs) =>
          match attrs !! "feedback_entry" with
          | Some (VRef l) => Some l
          | _ => None
          end
      | _ => None
      end
  | None => None
  end.

(** Whether, when the method of the [i]-th check starts, its record holds
    the fixture and the class attribute is as [setUpClass] left it. *)
Definition entry_check (w : world) (i : nat) : bool :=
  match at_method_entry w i with
  | Some (s, self) =>
      match heap s !! self with
      | Some (OInstance attrs) =>
          match attrs !! "feedback_entry" with
          | Some (VRef l) =>
              bool_decide (heap s !! l = Some (ODict feedback_fixture)) &&
              bool_decide (class_attrs s !! "database_connection" =
                           Some (VScalar (SStr "Mock Database Connection")))
          | _ => false
          end
      | _ => false
      end
  | None => false
  end.

(** Worlds and a state to try the statements on. *)
Fixpoint seconds (n : nat) : float :=
  match n with
  | O => 0%float
  | S n' => PrimFloat.add (seconds n') 1%float
  end.

Definition fast_world : world :=
  World (λ n, PrimFloat.mul 0.125%float (seconds n)) 3 12 0 "final" 0.

Definition slow_world : world :=
  World seconds 3 12 0 "final" 0.

Definition old_python_world : world :=
  World (λ n, PrimFloat.mul 0.125%float (seconds n)) 3 5 2 "final" 0.

(** The readings 0.1 and then 0.6, as the floats Python reads them. *)
Definition boundary_world : world :=
  World (λ n, match n with
              | O => 0x1.999999999999ap-4%float
              | S _ => 0x1.3333333333333p-1%float
              end) 3 12 0 "final" 0.

Definition one_instance : state :=
  State {[ 1%positive := OInstance ∅ ]} ∅ 0%nat [].

(** What a check reports when its method starts with the clock read [t]
    times: only the latency and the compatibility check can fail. *)
Definition case_outcome (w : world) (t : nat) (name : string) : list exn :=
  if bool_decide (name = "test_feedback_submission_time") then
    if PrimFloat.ltb (PrimFloat.sub (clock w (S t)) (clock w t)) 0.5%float
    then [] else [AssertionError]
  else if bool_decide (name = "test_system_compatibility") then
    if version_ok w then [] else [AssertionError]
  else [].

(** The clock readings a check takes. *)
Definition case_ticks (name : string) : nat :=
  if bool_decide (name = "test_feedback_submission_time") then 2 else 0.

(** The reports of a list of checks run one after the other. *)
Fixpoint outcomes (w : world) (t : nat) (names : list string)
  : list (string * list exn) :=
  match names with
  | [] => []
  | name :: names' =>
      (name, case_outcome w t name) ::
      outcomes w (case_ticks name + t) names'
  end.


Definition other_course_instance : state :=
  State {[ 1%positive := OInstance {[ "feedback_entry" := VRef 2 ]};
           2%positive := ODict {[ "course" := SStr "MA201" ]} ]}
    ∅ 0%nat [].

(** An instance as [setUp] leaves it, with other objects around. *)
Definition ready_instance : state :=
  State {[ 1%positive := OInstance {[ "feedback_entry" := VRef 2 ]};
           2%positive := ODict feedback_fixture;
           3%positive := OMock new_mock ]}
    {[ "database_connection" := VScalar (SStr "left over") ]} 5%nat [].

Import TestFeedbackTracker.

(** ** Facts about the operators *)

Lemma lookup_fresh (h : gmap positive object) : h !! fresh (dom h) = None.
Proof. apply not_elem_of_dom, is_fresh. Qed.

Lemma scalar_eq_refl a : scalar_eq a a = true.
Proof. destruct a; simpl; try done; by apply bool_decide_eq_true. Qed.

Lemma dict_eq_refl d : dict_eq d d = true.
Proof.
  unfold dict_eq. apply andb_true_iff. split; [by apply bool_decide_eq_true|].
  apply forallb_forall. intros [k v] Hin. simpl.
  apply list_elem_of_In, elem_of_map_to_list in Hin. rewrite Hin.
  apply scalar_eq_refl.
Qed.

Lemma py_eq_refl h v : py_eq h v v = true.
Proof.
  destruct v as [c|l]; simpl; [apply scalar_eq_refl|].
  destruct (h !! l) as [[d|a|m]|]; try by apply bool_decide_eq_true.
  - apply dict_eq_refl.
  - destruct (a !! "_testMethodName") as [[n|l']|];
      try by apply bool_decide_eq_true.
    apply scalar_eq_refl.
Qed.

Lemma setUp_dict :
  foldl (λ (d : gmap string scalar) kv, <[kv.1:=kv.2]> d) ∅
    [("student_id", SInt 12345); ("course", SStr "CS101");
     ("feedback", SStr "Great course!")] = feedback_fixture.
Proof. apply map_eq. intros k. vm_compute. reflexivity. Qed.

Lemma feedback_fixture_lookup k :
  feedback_fixture !! k =
    if bool_decide (k = "student_id") then Some (SInt 12345)
    else if bool_decide (k = "course") then Some (SStr "CS101")
    else if bool_decide (k = "feedback") then Some (SStr "Great course!")
    else None.
Proof.
  unfold feedback_fixture.
  repeat (case_bool_decide; [subst k; by simplify_map_eq|]).
  by simplify_map_eq.
Qed.

Lemma tuple_ge_version w :
  tuple_ge (sys_version_info w) [SInt 3; SInt 6] = Some (version_ok w).
Proof.
  unfold sys_version_info, version_ok. simpl.
  repeat case_bool_decide; first [done | exfalso; lia].
Qed.

Lemma wasSuccessful_spec results :
  wasSuccessful results = true ↔ ∀ r, r ∈ results → r.2 = [].
Proof.
  unfold wasSuccessful. rewrite forallb_forall. split.
  - intros H r Hr. apply list_elem_of_In, H in Hr.
    by apply bool_decide_eq_true in Hr.
  - intros H r Hr. apply bool_decide_eq_true, H, list_elem_of_In, Hr.
Qed.

(** ** Running a computation on a state that is only partly known *)

Ltac py_unfold :=
  cbv [mbind mret Py_bind Py_ret raise try get_heap set_heap emit alloc store
       class_setattr class_getattr getattr setattr dict_display MagicMock
       get_mock mock_attr set_return_value set_side_effect mock_call getitem
       fail_unless assertEqual assertNotEqual assertIsNone assertTrue assertFalse
       assertLess assertGreaterEqual time_time time_sleep new_mock
       heap class_attrs ticks log
       mock_children mock_return_value mock_side_effect mock_calls].

(** Name the address of the next allocation and record that it differs
    from every address written so far. *)
Ltac name_fresh :=
  match goal with
  | |- context [fresh (dom ?H)] =>
      let Hl := fresh "Hfresh" in
      let l := fresh "l" in
      pose proof (lookup_fresh H) as Hl;
      set (l := fresh (dom H)) in *;
      clearbody l;
      repeat (apply lookup_insert_None in Hl as [Hl ?])
  end.

Ltac py_lookup :=
  repeat first
    [ rewrite lookup_insert_eq
    | rewrite lookup_insert_ne by congruence
    | rewrite lookup_empty ].

Ltac py_run :=
  py_unfold;
  repeat first
    [ progress py_lookup
    | match goal with
      | H : ?h !! ?l = Some _ |- context [?h !! ?l] => rewrite H
      end
    | name_fresh
    | progress py_unfold ].

Lemma frame_intro h h' ca t t' lg :
  h ⊆ h' → frame (State h ca t lg) (State h' ca t' lg).
Proof. by intros ?. Qed.

Ltac py_frame :=
  apply frame_intro, map_subseteq_spec;
  let i := fresh "i" in
  let x := fresh "x" in
  let Hi := fresh "Hi" in
  intros i x Hi; py_lookup; exact Hi.

(** ** The fixtures and the test methods, one by one *)

Lemma setUp_run s self attrs :
  heap s !! self = Some (OInstance attrs) →
  ∃ l,
    heap s !! l = None ∧
    setUp self s =
      (State (<[self:=OInstance (<["feedback_entry":=VRef l]> attrs)]>
                (<[l:=ODict feedback_fixture]> (heap s)))
         (class_attrs s) (ticks s) (log s), Ok tt).
Proof.
  intros Hself. destruct s as [h ca t lg]. simpl in Hself.
  unfold setUp, dict_display. rewrite setUp_dict. py_run.
  eexists. split; [eassumption|reflexivity].
Qed.

Lemma setUp_ready s self attrs :
  heap s !! self = Some (OInstance attrs) →
  ∃ l s1,
    heap s !! l = None ∧
    setUp self s = (s1, Ok tt) ∧
    heap s1 !! self = Some (OInstance (<["feedback_entry":=VRef l]> attrs)) ∧
    heap s1 !! l = Some (ODict feedback_fixture) ∧
    (∀ l', l' ≠ l → l' ≠ self → heap s1 !! l' = heap s !! l') ∧
    class_attrs s1 = class_attrs s ∧ ticks s1 = ticks s ∧ log s1 = log s.
Proof.
  intros Hself. destruct (setUp_run s self attrs Hself) as (l & Hl & Hrun).
  exists l. eexists. split; [done|]. split; [exact Hrun|]. simpl.
  assert (self ≠ l) by congruence.
  split; [by py_lookup|]. split; [by py_lookup|].
  split; [|done]. intros l' ? ?. by py_lookup.
Qed.

Lemma tearDown_run s self attrs :
  heap s !! self = Some (OInstance attrs) →
  tearDown self s =
    (State (<[self:=OInstance (<["feedback_entry":=VScalar SNone]> attrs)]>
              (heap s))
       (class_attrs s) (ticks s) (log s), Ok tt).
Proof.
  intros Hself. destruct s as [h ca t lg]. simpl in Hself.
  unfold tearDown. py_run. reflexivity.
Qed.

Lemma getattr_own s self attrs name v :
  heap s !! self = Some (OInstance attrs) →
  attrs !! name = Some v →
  getattr self name s = (s, Ok v).
Proof. intros Hself Hv. destruct s. simpl in Hself. by py_run. Qed.

Lemma test_add_feedback_run s self attrs l d :
  heap s !! self = Some (OInstance attrs) →
  attrs !! "feedback_entry" = Some (VRef l) →
  heap s !! l = Some (ODict d) →
  d !! "course" = Some (SStr "CS101") →
  test_add_feedback self s = (s, Ok tt).
Proof.
  intros Hself Hattr Hl Hd. destruct s as [h ca t lg]. simpl in Hself, Hl.
  unfold test_add_feedback. py_run. reflexivity.
Qed.

Lemma test_remove_feedback_run s self attrs :
  heap s !! self = Some (OInstance attrs) →
  test_remove_feedback self s =
    (State (<[self:=OInstance (<["feedback_entry":=VScalar SNone]> attrs)]>
              (heap s))
       (class_attrs s) (ticks s) (log s), Ok tt).
Proof.
  intros Hself. destruct s as [h ca t lg]. simpl in Hself.
  unfold test_remove_feedback. py_run. reflexivity.
Qed.

Lemma test_database_integration_run s self attrs v :
  heap s !! self = Some (OInstance attrs) →
  attrs !! "feedback_entry" = Some v →
  ∃ s' f m,
    test_database_integration self s = (s', Ok tt) ∧
    frame s s' ∧ ticks s' = ticks s ∧
    heap s !! f = None ∧ heap s' !! f = Some (OMock m) ∧
    mock_return_value m = Some (VScalar (SBool true)) ∧
    mock_calls m = [[v]].
Proof.
  intros Hself Hv. destruct s as [h ca t lg]. simpl in Hself.
  unfold test_database_integration. py_run. cbv [truthy]. do 3 eexists.
  split; [reflexivity|]. split; [py_frame|]. split; [reflexivity|].
  refine (conj _ (conj (lookup_insert_eq _ _ _) _)); [assumption|done].
Qed.

Lemma test_feedback_retrieval_run s self attrs v :
  heap s !! self = Some (OInstance attrs) →
  attrs !! "feedback_entry" = Some v →
  ∃ s' f m,
    test_feedback_retrieval self s = (s', Ok tt) ∧
    frame s s' ∧ ticks s' = ticks s ∧
    heap s !! f = None ∧ heap s' !! f = Some (OMock m) ∧
    mock_return_value m = Some v ∧
    mock_calls m = [[VScalar (SInt 12345)]].
Proof.
  intros Hself Hv. destruct s as [h ca t lg]. simpl in Hself.
  unfold test_feedback_retrieval. py_run. rewrite py_eq_refl. do 3 eexists.
  split; [reflexivity|]. split; [py_frame|]. split; [reflexivity|].
  refine (conj _ (conj (lookup_insert_eq _ _ _) _)); [assumption|done].
Qed.

Lemma test_feedback_submission_time_run w s self :
  test_feedback_submission_time w self s =
    (State (heap s) (class_attrs s) (S (S (ticks s))) (log s),
     if PrimFloat.ltb
          (PrimFloat.sub (clock w (S (ticks s))) (clock w (ticks s)))
          0.5%float
     then Ok tt else Raise AssertionError).
Proof.
  destruct s as [h ca t lg]. unfold test_feedback_submission_time. py_run.
  by destruct (PrimFloat.ltb _ _).
Qed.

Lemma test_sql_injection_protection_run s self :
  ∃ s' f m arg d,
    test_sql_injection_protection self s = (s', Ok tt) ∧
    frame s s' ∧ ticks s' = ticks s ∧
    heap s !! f = None ∧ heap s' !! f = Some (OMock m) ∧
    mock_return_value m = Some (VScalar (SBool false)) ∧
    mock_calls m = [[VRef arg]] ∧
    heap s' !! arg = Some (ODict d) ∧
    d !! "feedback" = Some (SStr "DROP TABLE feedback; --").
Proof.
  destruct s as [h ca t lg].
  unfold test_sql_injection_protection. py_run. cbv [truthy]. do 5 eexists.
  split; [reflexivity|]. split; [py_frame|]. split; [reflexivity|].
  refine (conj _ (conj (lookup_insert_eq _ _ _) _)); [assumption|].
  split; [done|]. split; [done|]. split; [by py_lookup|]. done.
Qed.

Lemma test_system_compatibility_run w s self :
  test_system_compatibility w self s =
    (s, if version_ok w then Ok tt else Raise AssertionError).
Proof.
  unfold test_system_compatibility, assertGreaterEqual.
  rewrite tuple_ge_version. by destruct (version_ok w).
Qed.

Lemma test_previous_bug_fix_run s self :
  ∃ s' f m,
    test_previous_bug_fix self s = (s', Ok tt) ∧
    frame s s' ∧ ticks s' = ticks s ∧
    heap s !! f = None ∧ heap s' !! f = Some (OMock m) ∧
    mock_side_effect m = Some [] ∧
    mock_calls m = [[VScalar (SInt 12345)]; [VScalar (SInt 12345)]].
Proof.
  destruct s as [h ca t lg].
  unfold test_previous_bug_fix. py_run.
  cbv [py_eq scalar_eq]. rewrite bool_decide_eq_false_2 by done.
  do 3 eexists.
  split; [reflexivity|]. split; [py_frame|]. split; [reflexivity|].
  refine (conj _ (conj (lookup_insert_eq _ _ _) _)); [assumption|done].
Qed.

(** ** The runner *)

Lemma run_case_run w name method self s attrs :
  heap s !! self = Some (OInstance attrs) →
  ∃ l s1,
    heap s !! l = None ∧
    setUp self (State (heap s) (class_attrs s) (ticks s)
                  (log s ++ [EStartTest name])) = (s1, Ok tt) ∧
    heap s1 !! self = Some (OInstance (<["feedback_entry":=VRef l]> attrs)) ∧
    heap s1 !! l = Some (ODict feedback_fixture) ∧
    (∀ l', l' ≠ l → l' ≠ self → heap s1 !! l' = heap s !! l') ∧
    class_attrs s1 = class_attrs s ∧ ticks s1 = ticks s ∧
    log s1 = log s ++ [EStartTest name] ∧
    ∀ s2 r attrs2,
      method self s1 = (s2, r) →
      heap s2 !! self = Some (OInstance attrs2) →
      run_case (FTT w) name method self s =
        (State (<[self:=OInstance
                          (<["feedback_entry":=VScalar SNone]> attrs2)]>
                  (heap s2))
           (class_attrs s2) (ticks s2) (log s2 ++ [EStopTest name]),
         Ok (raised r)).
Proof.
  intros Hself. destruct s as [h ca t lg]. simpl in Hself.
  destruct (setUp_ready (State h ca t (lg ++ [EStartTest name])) self attrs
              Hself) as (l & s1 & Hl & Hrun & Hs1 & Hrec & Hrest & ? & ? & ?).
  exists l, s1. simpl. repeat (split; [done|]).
  intros s2 r attrs2 Hm Hself2.
  unfold run_case.
  cbv [mbind Py_bind mret Py_ret emit try FTT cls_setUp cls_tearDown
       heap class_attrs ticks log].
  rewrite Hrun, Hm, (tearDown_run s2 self attrs2 Hself2).
  simpl. by rewrite app_nil_r.
Qed.

Lemma fixture_course : feedback_fixture !! "course" = Some (SStr "CS101").
Proof. by rewrite feedback_fixture_lookup. Qed.

Lemma methods_leave_class_alone w name method :
  (name, method) ∈ test_methods w → leaves_class_alone method.
Proof.
  unfold test_methods. intros Hin self s (attrs & l & Hself & Hattr & Hl).
  repeat (apply elem_of_cons in Hin as [Heq|Hin];
          [injection Heq as _ ->|]); [..|by apply elem_of_nil in Hin].
  - exists s, (Ok tt), attrs.
    by rewrite (test_add_feedback_run s self attrs l _ Hself Hattr Hl
                  fixture_course).
  - rewrite (test_remove_feedback_run s self attrs Hself).
    do 3 eexists. split; [done|]. simpl. by rewrite lookup_insert_eq.
  - destruct (test_database_integration_run s self attrs _ Hself Hattr)
      as (s' & f & m & -> & Hframe & _).
    exists s', (Ok tt), attrs. split; [done|].
    destruct Hframe as (Hsub & ? & ?). repeat (split; [done|]).
    by eapply lookup_weaken.
  - destruct (test_feedback_retrieval_run s self attrs _ Hself Hattr)
      as (s' & f & m & -> & Hframe & _).
    exists s', (Ok tt), attrs. split; [done|].
    destruct Hframe as (Hsub & ? & ?). repeat (split; [done|]).
    by eapply lookup_weaken.
  - rewrite test_feedback_submission_time_run. do 3 eexists.
    split; [done|]. simpl. done.
  - destruct (test_sql_injection_protection_run s self)
      as (s' & f & m & arg & d & -> & Hframe & _).
    exists s', (Ok tt), attrs. split; [done|].
    destruct Hframe as (Hsub & ? & ?). repeat (split; [done|]).
    by eapply lookup_weaken.
  - rewrite test_system_compatibility_run. do 3 eexists.
    split; [done|]. done.
  - destruct (test_previous_bug_fix_run s self)
      as (s' & f & m & -> & Hframe & _).
    exists s', (Ok tt), attrs. split; [done|].
    destruct Hframe as (Hsub & ? & ?). repeat (split; [done|]).
    by eapply lookup_weaken.
Qed.

Lemma run_case_quiet w name method self s attrs :
  leaves_class_alone method →
  heap s !! self = Some (OInstance attrs) →
  ∃ s' problems,
    run_case (FTT w) name method self s = (s', Ok problems) ∧
    class_attrs s' = class_attrs s ∧
    log s' = log s ++ [EStartTest name; EStopTest name].
Proof.
  intros Hquiet Hself.
  destruct (run_case_run w name method self s attrs Hself)
    as (l & s1 & Hl & Hrun & Hs1 & Hrec & Hrest & Hca & Ht & Hlog & Hcase).
  destruct (Hquiet self s1) as (s2 & r & attrs2 & Hm & Hca2 & Hlog2 & Hself2).
  { exists (<["feedback_entry":=VRef l]> attrs), l.
    split; [done|]. split; [by rewrite lookup_insert_eq|done]. }
  rewrite (Hcase s2 r attrs2 Hm Hself2). do 2 eexists. split; [done|].
  simpl. rewrite Hca2, Hlog2, Hca, Hlog. split; [done|].
  by rewrite <- app_assoc.
Qed.

(** The whole run, from the state the interpreter starts in. *)
Lemma run_suite_results w :
  (run_suite (FTT w) initial_state).2 =
    Ok [("test_add_feedback", []); ("test_database_integration", []);
        ("test_feedback_retrieval", []);
        ("test_feedback_submission_time", raised (latency_result w) ++ []);
        ("test_previous_bug_fix", []); ("test_remove_feedback", []);
        ("test_sql_injection_protection", []);
        ("test_system_compatibility", raised (version_result w) ++ [])].
Proof. vm_compute. reflexivity. Qed.

Lemma version_result_eq w :
  version_result w = if version_ok w then Ok tt else Raise AssertionError.
Proof.
  unfold version_result. rewrite tuple_ge_version. by destruct (version_ok w).
Qed.

Lemma suite_results_eq w :
  suite_results w =
    [("test_add_feedback", []); ("test_database_integration", []);
     ("test_feedback_retrieval", []);
     ("test_feedback_submission_time",
      if latency_ok w then [] else [AssertionError]);
     ("test_previous_bug_fix", []); ("test_remove_feedback", []);
     ("test_sql_injection_protection", []);
     ("test_system_compatibility",
      if version_ok w then [] else [AssertionError])].
Proof.
  unfold suite_results. rewrite run_suite_results, version_result_eq.
  unfold latency_result. by destruct (latency_ok w), (version_ok w).
Qed.

Lemma exit_status_eq w :
  exit_status w = if wasSuccessful (suite_results w) then 0 else 1.
Proof.
  unfold exit_status, main, suite_results.
  pose proof (run_suite_results w) as H.
  destruct (run_suite (FTT w) initial_state) as [s' r]. simpl in *.
  by rewrite H.
Qed.

(** The run of a list of cases is the run of its first part followed by
    the run of the rest, which is what [at_method_entry] relies on. *)
Lemma run_cases_app C ts1 ts2 s :
  run_cases C (ts1 ++ ts2) s =
    (rs1 ← run_cases C ts1; rs2 ← run_cases C ts2; mret (rs1 ++ rs2)) s.
Proof.
  revert s. induction ts1 as [|[[n m] self] ts1 IH]; intros s; simpl.
  - cbv [mbind Py_bind mret Py_ret].
    by destruct (run_cases C ts2 s) as [s' [rs|e]].
  - cbv [mbind Py_bind mret Py_ret] in *.
    destruct (run_case C n m self s) as [s1 [p|e]]; [|done].
    rewrite IH.
    destruct (run_cases C ts1 s1) as [s2 [rs1|e]]; [|done].
    by destruct (run_cases C ts2 s2) as [s3 [rs2|e]].
Qed.

Lemma record_seen_eq w i :
  record_seen w i = [9; 10; 13; 16; 17; 20; 21; 25]%positive !! i.
Proof.
  do 8 (destruct i as [|i]; [vm_compute; reflexivity|]).
  vm_compute. reflexivity.
Qed.

Lemma entry_check_true w i : (i < 8)%nat → entry_check w i = true.
Proof.
  intros Hi. do 8 (destruct i as [|i]; [vm_compute; reflexivity|]). lia.
Qed.

Lemma at_method_entry_fixture w i :
  (i < 8)%nat →
  ∃ s self l,
    at_method_entry w i = Some (s, self) ∧
    record_seen w i = Some l ∧
    heap s !! l = Some (ODict feedback_fixture) ∧
    class_attrs s !! "database_connection" =
      Some (VScalar (SStr "Mock Database Connection")).
Proof.
  intros Hi. pose proof (entry_check_true w i Hi) as H.
  unfold entry_check in H. unfold record_seen.
  destruct (at_method_entry w i) as [[s self]|]; [|done].
  destruct (heap s !! self) as [[|attrs|]|]; try done.
  destruct (attrs !! "feedback_entry") as [[|l]|]; try done.
  apply andb_true_iff in H as [H1 H2].
  apply bool_decide_eq_true in H1, H2. eauto 10.
Qed.

(** ** The claims *)

(** C7.  For the record that [setUp] creates before a check, whatever the
    state it starts from, reading the [course] field gives ["CS101"], and
    so the equality assertion of [test_add_feedback] holds: the method
    returns without raising and leaves the state as it was. *)
Theorem fixture_course_is_CS101 s self attrs :
  heap s !! self = Some (OInstance attrs) →
  ∃ s1,
    setUp self s = (s1, Ok tt) ∧
    (entry ← getattr self "feedback_entry"; getitem entry "course") s1 =
      (s1, Ok (VScalar (SStr "CS101"))) ∧
    test_add_feedback self s1 = (s1, Ok tt).
Proof.
  intros Hself.
  destruct (setUp_ready s self attrs Hself)
    as (l & s1 & _ & Hrun & Hs1 & Hrec & _).
  exists s1. split; [done|]. split.
  - destruct s1 as [h1 ca1 t1 lg1]. simpl in Hs1, Hrec. py_run.
    by rewrite fixture_course.
  - eapply test_add_feedback_run; [done|apply lookup_insert_eq|done|].
    apply fixture_course.
Qed.

Lemma fixture_course_is_CS101_witness :
  heap one_instance !! 1%positive = Some (OInstance ∅) ∧
  ∃ s1,
    setUp 1%positive one_instance = (s1, Ok tt) ∧
    (entry ← getattr 1%positive "feedback_entry"; getitem entry "course") s1 =
      (s1, Ok (VScalar (SStr "CS101"))) ∧
    test_add_feedback 1%positive s1 = (s1, Ok tt).
Proof.
  split; [vm_compute; reflexivity|].
  apply (fixture_course_is_CS101 one_instance 1%positive ∅).
  vm_compute. reflexivity.
Defined.

(** C10.  [setUp] pins the fixture: from any state it succeeds and leaves
    [self.feedback_entry] referring to a dict that is exactly the mapping
    of [student_id] to 12345, [course] to ["CS101"] and [feedback] to
    ["Great course!"], the same whatever the state was.  The identifier
    the retrieval check queries with is the record's [student_id]: the
    call recorded by the mock has the value of that field as its only
    argument. *)
Theorem setUp_pins_the_fixture s self attrs :
  heap s !! self = Some (OInstance attrs) →
  ∃ s1 l,
    setUp self s = (s1, Ok tt) ∧
    getattr self "feedback_entry" s1 = (s1, Ok (VRef l)) ∧
    heap s1 !! l =
      Some (ODict {[ "student_id" := SInt 12345;
                     "course" := SStr "CS101";
                     "feedback" := SStr "Great course!" ]}) ∧
    ∃ student_id s2 f m,
      getitem (VRef l) "student_id" s1 = (s1, Ok (VScalar student_id)) ∧
      student_id = SInt 12345 ∧
      test_feedback_retrieval self s1 = (s2, Ok tt) ∧
      heap s2 !! f = Some (OMock m) ∧
      mock_calls m = [[VScalar student_id]].
Proof.
  intros Hself.
  destruct (setUp_ready s self attrs Hself)
    as (l & s1 & _ & Hrun & Hs1 & Hrec & _).
  exists s1, l. split; [done|].
  split; [by eapply getattr_own; [|apply lookup_insert_eq]|].
  split; [exact Hrec|].
  destruct (test_feedback_retrieval_run s1 self _ (VRef l) Hs1)
    as (s2 & f & m & Htest & _ & _ & _ & Hf & _ & Hcalls).
  { apply lookup_insert_eq. }
  exists (SInt 12345), s2, f, m. split; [|done].
  destruct s1 as [h1 ca1 t1 lg1]. simpl in Hrec. py_run.
  by rewrite feedback_fixture_lookup.
Qed.

Lemma setUp_pins_the_fixture_witness :
  heap one_instance !! 1%positive = Some (OInstance ∅) ∧
  ∃ s1 l,
    setUp 1%positive one_instance = (s1, Ok tt) ∧
    getattr 1%positive "feedback_entry" s1 = (s1, Ok (VRef l)) ∧
    heap s1 !! l =
      Some (ODict {[ "student_id" := SInt 12345;
                     "course" := SStr "CS101";
                     "feedback" := SStr "Great course!" ]}) ∧
    ∃ student_id s2 f m,
      getitem (VRef l) "student_id" s1 = (s1, Ok (VScalar student_id)) ∧
      student_id = SInt 12345 ∧
      test_feedback_retrieval 1%positive s1 = (s2, Ok tt) ∧
      heap s2 !! f = Some (OMock m) ∧
      mock_calls m = [[VScalar student_id]].
Proof.
  split; [vm_compute; reflexivity|].
  apply (setUp_pins_the_fixture one_instance 1%positive ∅).
  vm_compute. reflexivity.
Defined.

(** Split a computation at its binds on a state that is not known. *)
Ltac py_split :=
  cbv [mbind Py_bind mret Py_ret];
  repeat match goal with
         | |- context [match ?c with pair _ _ => _ end] =>
             lazymatch c with
             | context [match _ with pair _ _ => _ end] => fail
             | pair _ _ => fail
             | _ => destruct c as [? [?|?]]
             end
         end;
  try reflexivity.

Lemma test_feedback_retrieval_split self s :
  test_feedback_retrieval self s =
    (result ← (mock_db ← MagicMock;
               entry ← getattr self "feedback_entry";
               f ← mock_attr mock_db "get_feedback";
               set_return_value f entry;;
               f ← mock_attr mock_db "get_feedback";
               mock_call f [VScalar (SInt 12345)]);
     entry ← getattr self "feedback_entry";
     assertEqual result entry) s.
Proof. unfold test_feedback_retrieval. py_split. Qed.

Lemma test_sql_injection_protection_split self s :
  test_sql_injection_protection self s =
    (result ← (mock_db ← MagicMock;
               f ← mock_attr mock_db "add_feedback";
               set_return_value f (SBool false);;
               f ← mock_attr mock_db "add_feedback";
               arg ← dict_display
                       [("student_id", SInt 12345);
                        ("course", SStr "CS101");
                        ("feedback", SStr "DROP TABLE feedback; --")];
               mock_call f [arg]);
     assertFalse result) s.
Proof. unfold test_sql_injection_protection. py_split. Qed.

Lemma test_previous_bug_fix_split self s :
  test_previous_bug_fix self s =
    (attempts ← (mock_db ← MagicMock;
                 f ← mock_attr mock_db "get_feedback";
                 set_side_effect f [VScalar (SStr "Old Feedback");
                                    VScalar (SStr "Fixed Feedback")];;
                 f ← mock_attr mock_db "get_feedback";
                 first_attempt ← mock_call f [VScalar (SInt 12345)];
                 f ← mock_attr mock_db "get_feedback";
                 second_attempt ← mock_call f [VScalar (SInt 12345)];
                 mret (first_attempt, second_attempt));
     assertNotEqual attempts.1 attempts.2) s.
Proof. unfold test_previous_bug_fix. py_split. Qed.

(** C1.  In the retrieval check the mock's [get_feedback] is configured
    to return the record [setUp] created; queried with 12345 it returns
    that very record, which still holds the fixture's three fields and
    compares equal to [self.feedback_entry], so the equality assertion
    holds.  The check is this query followed by the assertion on its
    result; run after [setUp] it returns without raising, having made
    one mock whose [return_value] is the record and whose one recorded
    call has the argument 12345. *)
Theorem retrieval_returns_the_fixture s self attrs :
  heap s !! self = Some (OInstance attrs) →
  let query :=
    (mock_db ← MagicMock;
     entry ← getattr self "feedback_entry";
     f ← mock_attr mock_db "get_feedback";
     set_return_value f entry;;
     f ← mock_attr mock_db "get_feedback";
     mock_call f [VScalar (SInt 12345)]) in
  (∀ s0,
     test_feedback_retrieval self s0 =
       (result ← query;
        entry ← getattr self "feedback_entry";
        assertEqual result entry) s0) ∧
  ∃ s1 l,
    setUp self s = (s1, Ok tt) ∧
    getattr self "feedback_entry" s1 = (s1, Ok (VRef l)) ∧
    heap s1 !! l = Some (ODict feedback_fixture) ∧
    ∃ s2 f,
      query s1 = (s2, Ok (VRef l)) ∧
      test_feedback_retrieval self s1 = (s2, Ok tt) ∧
      heap s1 !! f = None ∧
      heap s2 !! f =
        Some (OMock (Mock ∅ (Some (VRef l)) None
                       [[VScalar (SInt 12345)]])) ∧
      heap s2 !! l = Some (ODict feedback_fixture) ∧
      getattr self "feedback_entry" s2 = (s2, Ok (VRef l)) ∧
      py_eq (heap s2) (VRef l) (VRef l) = true.
Proof.
  intros Hself query. split; [apply test_feedback_retrieval_split|].
  destruct (setUp_ready s self attrs Hself)
    as (l & s1 & _ & Hrun & Hs1 & Hrec & _).
  exists s1, l. split; [done|].
  split; [by eapply getattr_own; [|apply lookup_insert_eq]|].
  split; [exact Hrec|].
  rewrite test_feedback_retrieval_split. subst query.
  destruct s1 as [h1 ca1 t1 lg1]. simpl in Hs1, Hrec. py_run.
  rewrite py_eq_refl. do 2 eexists.
  split; [reflexivity|]. split; [reflexivity|].
  refine (conj _ (conj (lookup_insert_eq _ _ _) _)); [assumption|].
  split; [by py_lookup|]. split; [|apply py_eq_refl]. py_run. reflexivity.
Qed.

Lemma retrieval_returns_the_fixture_witness :
  heap one_instance !! 1%positive = Some (OInstance ∅) ∧
  ∃ s1 l,
    setUp 1%positive one_instance = (s1, Ok tt) ∧
    getattr 1%positive "feedback_entry" s1 = (s1, Ok (VRef l)) ∧
    heap s1 !! l = Some (ODict feedback_fixture) ∧
    ∃ s2 f,
      (mock_db ← MagicMock;
       entry ← getattr 1%positive "feedback_entry";
       f ← mock_attr mock_db "get_feedback";
       set_return_value f entry;;
       f ← mock_attr mock_db "get_feedback";
       mock_call f [VScalar (SInt 12345)]) s1 = (s2, Ok (VRef l)) ∧
      test_feedback_retrieval 1%positive s1 = (s2, Ok tt) ∧
      heap s1 !! f = None ∧
      heap s2 !! f =
        Some (OMock (Mock ∅ (Some (VRef l)) None
                       [[VScalar (SInt 12345)]])) ∧
      heap s2 !! l = Some (ODict feedback_fixture) ∧
      getattr 1%positive "feedback_entry" s2 = (s2, Ok (VRef l)) ∧
      py_eq (heap s2) (VRef l) (VRef l) = true.
Proof.
  split; [vm_compute; reflexivity|].
  apply (retrieval_returns_the_fixture one_instance 1%positive ∅).
  vm_compute. reflexivity.
Defined.

(** C4.  In the removal check, once [self.feedback_entry] has been
    overwritten with [None], reading it gives [None]; so [assertIsNone]
    holds, [test_remove_feedback] returns without raising, and after the
    check the reference still reads as [None]. *)
Theorem removal_reads_back_None s self attrs :
  heap s !! self = Some (OInstance attrs) →
  ∃ s',
    (setattr self "feedback_entry" SNone;;
     getattr self "feedback_entry") s = (s', Ok (VScalar SNone)) ∧
    assertIsNone (VScalar SNone) s' = (s', Ok tt) ∧
    test_remove_feedback self s = (s', Ok tt) ∧
    getattr self "feedback_entry" s' = (s', Ok (VScalar SNone)).
Proof.
  intros Hself. rewrite (test_remove_feedback_run s self attrs Hself).
  eexists. split; [|split; [|split; [reflexivity|]]].
  - destruct s as [h ca t lg]. simpl in Hself. py_run. reflexivity.
  - reflexivity.
  - eapply getattr_own; [apply lookup_insert_eq|apply lookup_insert_eq].
Qed.

Lemma removal_reads_back_None_witness :
  heap one_instance !! 1%positive = Some (OInstance ∅) ∧
  ∃ s',
    (setattr 1%positive "feedback_entry" SNone;;
     getattr 1%positive "feedback_entry") one_instance =
      (s', Ok (VScalar SNone)) ∧
    assertIsNone (VScalar SNone) s' = (s', Ok tt) ∧
    test_remove_feedback 1%positive one_instance = (s', Ok tt) ∧
    getattr 1%positive "feedback_entry" s' = (s', Ok (VScalar SNone)).
Proof.
  split; [vm_compute; reflexivity|].
  apply (removal_reads_back_None one_instance 1%positive ∅).
  vm_compute. reflexivity.
Defined.

(** C5.  In the malicious-input check the mock's [add_feedback] is
    configured to return [False]; called with a record whose [feedback]
    field is the payload ["DROP TABLE feedback; --"] it returns [False],
    so [assertFalse] holds.  The check is this call followed by the
    assertion on its result; from any state it returns without raising,
    having made the record and one mock whose [return_value] is [False]
    and whose one recorded call has the record as its argument. *)
Theorem malicious_input_is_reported_as_failure s self :
  let query :=
    (mock_db ← MagicMock;
     f ← mock_attr mock_db "add_feedback";
     set_return_value f (SBool false);;
     f ← mock_attr mock_db "add_feedback";
     arg ← dict_display [("student_id", SInt 12345);
                         ("course", SStr "CS101");
                         ("feedback", SStr "DROP TABLE feedback; --")];
     mock_call f [arg]) in
  (∀ s0,
     test_sql_injection_protection self s0 =
       (result ← query; assertFalse result) s0) ∧
  ∃ s' f arg d,
    query s = (s', Ok (VScalar (SBool false))) ∧
    truthy (heap s') (VScalar (SBool false)) = false ∧
    test_sql_injection_protection self s = (s', Ok tt) ∧
    heap s !! f = None ∧
    heap s' !! f =
      Some (OMock (Mock ∅ (Some (VScalar (SBool false))) None
                     [[VRef arg]])) ∧
    heap s !! arg = None ∧
    heap s' !! arg = Some (ODict d) ∧
    d !! "student_id" = Some (SInt 12345) ∧
    d !! "course" = Some (SStr "CS101") ∧
    d !! "feedback" = Some (SStr "DROP TABLE feedback; --").
Proof.
  intros query. split; [apply test_sql_injection_protection_split|].
  rewrite test_sql_injection_protection_split. subst query.
  destruct s as [h ca t lg]. py_run. cbv [truthy negb]. do 4 eexists.
  split; [reflexivity|]. split; [reflexivity|]. split; [reflexivity|].
  refine (conj _ (conj (lookup_insert_eq _ _ _) _)); [assumption|].
  split; [eassumption|]. split; [by py_lookup|]. done.
Qed.

(** C6.  In the non-regression check the mock's [get_feedback] is given
    the sequence ["Old Feedback"], ["Fixed Feedback"] as side effect; two
    successive calls with 12345 return the first and then the second,
    the two are unequal, so [assertNotEqual] holds.  The check is these
    two calls followed by the assertion on what they returned; from any
    state it returns without raising, having made one mock whose
    sequence is used up and whose two recorded calls have the argument
    12345. *)
Theorem successive_answers_differ s self :
  let attempts :=
    (mock_db ← MagicMock;
     f ← mock_attr mock_db "get_feedback";
     set_side_effect f [VScalar (SStr "Old Feedback");
                        VScalar (SStr "Fixed Feedback")];;
     f ← mock_attr mock_db "get_feedback";
     first_attempt ← mock_call f [VScalar (SInt 12345)];
     f ← mock_attr mock_db "get_feedback";
     second_attempt ← mock_call f [VScalar (SInt 12345)];
     mret (first_attempt, second_attempt)) in
  (∀ s0,
     test_previous_bug_fix self s0 =
       (both ← attempts; assertNotEqual both.1 both.2) s0) ∧
  ∃ s' f,
    attempts s =
      (s', Ok (VScalar (SStr "Old Feedback"),
               VScalar (SStr "Fixed Feedback"))) ∧
    py_eq (heap s') (VScalar (SStr "Old Feedback"))
      (VScalar (SStr "Fixed Feedback")) = false ∧
    test_previous_bug_fix self s = (s', Ok tt) ∧
    heap s !! f = None ∧
    heap s' !! f =
      Some (OMock (Mock ∅ None (Some [])
                     [[VScalar (SInt 12345)]; [VScalar (SInt 12345)]])).
Proof.
  intros attempts. split; [apply test_previous_bug_fix_split|].
  rewrite test_previous_bug_fix_split. subst attempts.
  destruct s as [h ca t lg]. py_run.
  cbv [py_eq scalar_eq negb]. rewrite bool_decide_eq_false_2 by done.
  cbn [app]. do 2 eexists.
  split; [reflexivity|]. split; [reflexivity|]. split; [reflexivity|].
  refine (conj _ (lookup_insert_eq _ _ _)). assumption.
Qed.

Lemma insert_by_name_perm {A} (t : string * A) ts :
  insert_by_name t ts ≡ₚ t :: ts.
Proof.
  induction ts as [|u ts IH]; simpl; [done|].
  destruct (String.leb t.1 u.1); [done|].
  rewrite IH. apply Permutation_swap.
Qed.

(** The loader drops no method and runs none twice. *)
Lemma getTestCaseNames_perm C : getTestCaseNames C ≡ₚ cls_methods C.
Proof.
  unfold getTestCaseNames. induction (cls_methods C) as [|t ts IH]; simpl.
  - done.
  - by rewrite insert_by_name_perm, IH.
Qed.

Lemma check_names_loaded w : check_names = (getTestCaseNames (FTT w)).*1.
Proof. vm_compute. reflexivity. Qed.

Lemma suite_results_names w : (suite_results w).*1 = check_names.
Proof.
  rewrite suite_results_eq. by destruct (latency_ok w), (version_ok w).
Qed.

Lemma at_method_entry_bound w i s self :
  at_method_entry w i = Some (s, self) → (i < 8)%nat.
Proof.
  intros H. do 8 (destruct i as [|i]; [lia|]).
  vm_compute in H. discriminate.
Qed.

(** C2.  The entry point runs every check of the class, each once, in
    the order of their names, whatever the outcome of the others, and the
    exit status it ends with is zero exactly when no check raised
    anything, and non-zero exactly when some check's assertion failed. *)
Theorem exit_status_reflects_the_checks w :
  (suite_results w).*1 = check_names ∧
  (suite_results w).*1 ≡ₚ (test_methods w).*1 ∧
  (exit_status w = 0 ↔ ∀ r, r ∈ suite_results w → r.2 = []) ∧
  (exit_status w ≠ 0 ↔ ∃ r, r ∈ suite_results w ∧ AssertionError ∈ r.2) ∧
  (exit_status w = 0 ↔ latency_ok w = true ∧ version_ok w = true).
Proof.
  split; [apply suite_results_names|].
  split.
  { rewrite suite_results_names, (check_names_loaded w).
    apply fmap_Permutation, (getTestCaseNames_perm (FTT w)). }
  split.
  { rewrite exit_status_eq, <- wasSuccessful_spec.
    by destruct (wasSuccessful _). }
  rewrite exit_status_eq, suite_results_eq.
  destruct (latency_ok w), (version_ok w); simpl; split.
  - split; [done|]. intros (r & Hr & He). exfalso.
    repeat (apply elem_of_cons in Hr as [->|Hr];
            [by apply elem_of_nil in He|]).
    by apply elem_of_nil in Hr.
  - done.
  - split; [intros _|done].
    exists ("test_system_compatibility", [AssertionError]).
    split; [set_solver|by apply list_elem_of_singleton].
  - split; [done|by intros [_ ?]].
  - split; [intros _|done].
    exists ("test_feedback_submission_time", [AssertionError]).
    split; [set_solver|by apply list_elem_of_singleton].
  - split; [done|by intros [? _]].
  - split; [intros _|done].
    exists ("test_feedback_submission_time", [AssertionError]).
    split; [set_solver|by apply list_elem_of_singleton].
  - split; [done|by intros [? _]].
Qed.

Lemma exit_status_reflects_the_checks_witness :
  exit_status fast_world = 0 ∧
  (∀ r, r ∈ suite_results fast_world → r.2 = []) ∧
  exit_status slow_world ≠ 0 ∧
  (∃ r, r ∈ suite_results slow_world ∧ AssertionError ∈ r.2).
Proof.
  destruct (exit_status_reflects_the_checks fast_world)
    as (_ & _ & Hzero & _).
  destruct (exit_status_reflects_the_checks slow_world)
    as (_ & _ & _ & Hnonzero & _).
  assert (exit_status fast_world = 0) as H0 by (vm_compute; reflexivity).
  assert (exit_status slow_world ≠ 0) as H1 by (vm_compute; discriminate).
  split; [exact H0|]. split; [exact (proj1 Hzero H0)|].
  split; [exact H1|exact (proj1 Hnonzero H1)].
Defined.

(** Readings of 0.1 and then 0.6 differ by exactly 0.5 as floats, which
    is not below 0.5: the latency check fails and the exit status is 1. *)
Example exit_status_at_the_boundary :
  latency_ok boundary_world = false ∧ exit_status boundary_world = 1.
Proof. split; vm_compute; reflexivity. Qed.

(** An interpreter older than 3.6 fails the compatibility check alone. *)
Example exit_status_old_python :
  exit_status old_python_world = 1 ∧
  suite_results old_python_world !! 7%nat =
    Some ("test_system_compatibility", [AssertionError]).
Proof. split; vm_compute; reflexivity. Qed.

Lemma main_log w :
  log (main w initial_state).1 =
    EClassWrite "database_connection" (SStr "Mock Database Connection") ::
    flat_map (λ n, [EStartTest n; EStopTest n]) check_names ++
    [EClassWrite "database_connection" SNone].
Proof. vm_compute. reflexivity. Qed.

Lemma main_handle w :
  class_attrs (main w initial_state).1 !! "database_connection" =
    Some (VScalar SNone).
Proof. vm_compute. reflexivity. Qed.

(** C9.  Over the whole run the class attribute [database_connection] is
    written twice and never read: [setUpClass] sets it before the first
    check starts and [tearDownClass] clears it after the last has
    stopped.  No check touches it: whatever state a check starts from,
    its [setUp], method and [tearDown] leave the class attributes as they
    were and add no event but the check's own start and stop; and in the
    run itself every method starts with the attribute holding the value
    [setUpClass] gave it. *)
Theorem handle_is_written_twice_and_never_touched w :
  log (main w initial_state).1 =
    EClassWrite "database_connection" (SStr "Mock Database Connection") ::
    flat_map (λ n, [EStartTest n; EStopTest n]) check_names ++
    [EClassWrite "database_connection" SNone] ∧
  class_attrs (main w initial_state).1 !! "database_connection" =
    Some (VScalar SNone) ∧
  (∀ name method self s attrs,
     (name, method) ∈ test_methods w →
     heap s !! self = Some (OInstance attrs) →
     ∃ s' problems,
       run_case (FTT w) name method self s = (s', Ok problems) ∧
       class_attrs s' = class_attrs s ∧
       log s' = log s ++ [EStartTest name; EStopTest name]) ∧
  (∀ i, (i < length check_names)%nat →
     ∃ s self,
       at_method_entry w i = Some (s, self) ∧
       class_attrs s !! "database_connection" =
         Some (VScalar (SStr "Mock Database Connection"))).
Proof.
  split; [apply main_log|].
  split; [apply main_handle|].
  split.
  - intros name method self s attrs Hin Hself.
    eapply run_case_quiet; [|done]. by eapply methods_leave_class_alone.
  - intros i Hi.
    destruct (at_method_entry_fixture w i Hi) as (s & self & l & ? & _ & _ & ?).
    by exists s, self.
Qed.

Lemma handle_is_written_twice_and_never_touched_witness :
  ("test_remove_feedback", test_remove_feedback) ∈ test_methods fast_world ∧
  heap one_instance !! 1%positive = Some (OInstance ∅) ∧
  ∃ s' problems,
    run_case (FTT fast_world) "test_remove_feedback" test_remove_feedback
      1%positive one_instance = (s', Ok problems) ∧
    class_attrs s' = class_attrs one_instance ∧
    log s' =
      log one_instance ++
      [EStartTest "test_remove_feedback"; EStopTest "test_remove_feedback"].
Proof.
  split; [unfold test_methods; set_solver|].
  split; [vm_compute; reflexivity|].
  apply (proj1 (proj2 (proj2
           (handle_is_written_twice_and_never_touched fast_world)))
           "test_remove_feedback" test_remove_feedback 1%positive
           one_instance ∅).
  - unfold test_methods. set_solver.
  - vm_compute. reflexivity.
Defined.

Lemma record_seen_inj w i j li lj :
  record_seen w i = Some li → record_seen w j = Some lj →
  i ≠ j → li ≠ lj.
Proof.
  rewrite !record_seen_eq. intros Hi Hj Hne ->. apply Hne.
  eapply NoDup_lookup; [|exact Hi|exact Hj].
  apply (bool_decide_unpack _). vm_compute. reflexivity.
Qed.

(** C3.  Whatever state the earlier checks left and whatever the method
    of a check does, the runner starts the method on a record that no
    object of the earlier state is: [setUp] has just created it, holding
    the fixture; and when the method is done [tearDown] has set
    [self.feedback_entry] to [None].  In the run itself every check sees
    a record holding the fixture, and the records of two distinct checks
    are two distinct objects. *)
Theorem record_is_fresh_in_every_check w :
  (∀ name method self s attrs,
     heap s !! self = Some (OInstance attrs) →
     ∃ l s1,
       heap s !! l = None ∧
       setUp self (State (heap s) (class_attrs s) (ticks s)
                     (log s ++ [EStartTest name])) = (s1, Ok tt) ∧
       getattr self "feedback_entry" s1 = (s1, Ok (VRef l)) ∧
       heap s1 !! l = Some (ODict feedback_fixture) ∧
       ∀ s2 r attrs2,
         method self s1 = (s2, r) →
         heap s2 !! self = Some (OInstance attrs2) →
         ∃ s3,
           run_case (FTT w) name method self s = (s3, Ok (raised r)) ∧
           getattr self "feedback_entry" s3 = (s3, Ok (VScalar SNone))) ∧
  (∀ i, (i < length check_names)%nat →
     ∃ s self l,
       at_method_entry w i = Some (s, self) ∧
       record_seen w i = Some l ∧
       getattr self "feedback_entry" s = (s, Ok (VRef l)) ∧
       heap s !! l = Some (ODict feedback_fixture)) ∧
  (∀ i j li lj,
     record_seen w i = Some li → record_seen w j = Some lj →
     i ≠ j → li ≠ lj).
Proof.
  split; [|split].
  - intros name method self s attrs Hself.
    destruct (run_case_run w name method self s attrs Hself)
      as (l & s1 & Hl & Hrun & Hs1 & Hrec & _ & _ & _ & _ & Hcase).
    exists l, s1. repeat (split; [done|]).
    split; [by eapply getattr_own; [|apply lookup_insert_eq]|].
    split; [done|].
    intros s2 r attrs2 Hm Hself2. eexists.
    split; [by apply (Hcase s2 r attrs2)|].
    eapply getattr_own; simpl; apply lookup_insert_eq.
  - intros i Hi.
    destruct (at_method_entry_fixture w i Hi)
      as (s & self & l & He & Hr & Hrec & _).
    exists s, self, l. repeat (split; [done|]). split; [|done].
    unfold record_seen in Hr. rewrite He in Hr.
    destruct (heap s !! self) as [[|attrs|]|] eqn:Hself; try done.
    destruct (attrs !! "feedback_entry") as [[|l']|] eqn:Hattr; try done.
    injection Hr as ->. by eapply getattr_own.
  - apply record_seen_inj.
Qed.

Lemma record_is_fresh_in_every_check_witness :
  heap one_instance !! 1%positive = Some (OInstance ∅) ∧
  ∃ l s1,
    heap one_instance !! l = None ∧
    setUp 1%positive
      (State (heap one_instance) (class_attrs one_instance)
         (ticks one_instance)
         (log one_instance ++ [EStartTest "test_remove_feedback"])) =
      (s1, Ok tt) ∧
    getattr 1%positive "feedback_entry" s1 = (s1, Ok (VRef l)) ∧
    heap s1 !! l = Some (ODict feedback_fixture) ∧
    ∀ s2 r attrs2,
      test_remove_feedback 1%positive s1 = (s2, r) →
      heap s2 !! 1%positive = Some (OInstance attrs2) →
      ∃ s3,
        run_case (FTT fast_world) "test_remove_feedback"
          test_remove_feedback 1%positive one_instance =
          (s3, Ok (raised r)) ∧
        getattr 1%positive "feedback_entry" s3 = (s3, Ok (VScalar SNone)).
Proof.
  split; [vm_compute; reflexivity|].
  apply (proj1 (record_is_fresh_in_every_check fast_world)
           "test_remove_feedback" test_remove_feedback 1%positive
           one_instance ∅).
  vm_compute. reflexivity.
Defined.

(** ** Beyond the claims: what each check does to the state *)

Ltac effects_goals :=
  repeat match goal with |- _ ∧ _ => split end;
  first
    [ done
    | apply lookup_insert_eq
    | by eapply lookup_weaken
    | by intros ? ? ? ?; eapply lookup_weaken
    | by intros ? ? ? ?; rewrite lookup_insert_ne
    | change (case_ticks _) with 0%nat; lia
    | change (case_ticks _) with 2%nat; lia
    | reflexivity ].

(** What a method of the class does when it starts with the fixture in
    place: it ends, it leaves the class, the events and every object but
    its own instance as they were, it reads the clock only if it is the
    latency check, and it reports what [case_outcome] says. *)
Lemma method_effects w name method :
  (name, method) ∈ test_methods w →
  ∀ self s, fixture_ready self s →
    ∃ s' r attrs',
      method self s = (s', r) ∧
      class_attrs s' = class_attrs s ∧ log s' = log s ∧
      heap s' !! self = Some (OInstance attrs') ∧
      (∀ l' o, l' ≠ self → heap s !! l' = Some o → heap s' !! l' = Some o) ∧
      ticks s' = (case_ticks name + ticks s)%nat ∧
      raised r = case_outcome w (ticks s) name.
Proof.
  unfold test_methods. intros Hin self s (attrs & l & Hself & Hattr & Hl).
  repeat (apply elem_of_cons in Hin as [Heq|Hin];
          [injection Heq as Hn Hm; subst name method|]);
    [..|by apply elem_of_nil in Hin].
  - exists s, (Ok tt), attrs.
    rewrite (test_add_feedback_run s self attrs l _ Hself Hattr Hl
               fixture_course).
    effects_goals.
  - rewrite (test_remove_feedback_run s self attrs Hself).
    do 3 eexists. split; [done|]. simpl. effects_goals.
  - destruct (test_database_integration_run s self attrs _ Hself Hattr)
      as (s' & f & m & -> & (Hsub & ? & ?) & Ht & _).
    exists s', (Ok tt), attrs. rewrite Ht. effects_goals.
  - destruct (test_feedback_retrieval_run s self attrs _ Hself Hattr)
      as (s' & f & m & -> & (Hsub & ? & ?) & Ht & _).
    exists s', (Ok tt), attrs. rewrite Ht. effects_goals.
  - rewrite test_feedback_submission_time_run. destruct s as [h ca t lg].
    do 3 eexists. split; [done|]. simpl in *.
    change (case_outcome w t "test_feedback_submission_time")
      with (if PrimFloat.ltb (PrimFloat.sub (clock w (S t)) (clock w t)) 0.5%float
            then [] else [AssertionError]).
    destruct (PrimFloat.ltb _ _); effects_goals.
  - destruct (test_sql_injection_protection_run s self)
      as (s' & f & m & arg & d & -> & (Hsub & ? & ?) & Ht & _).
    exists s', (Ok tt), attrs. rewrite Ht. effects_goals.
  - rewrite test_system_compatibility_run. do 3 eexists.
    split; [done|].
    change (case_outcome w (ticks s) "test_system_compatibility")
      with (if version_ok w then [] else [AssertionError]).
    destruct (version_ok w); effects_goals.
  - destruct (test_previous_bug_fix_run s self)
      as (s' & f & m & -> & (Hsub & ? & ?) & Ht & _).
    exists s', (Ok tt), attrs. rewrite Ht. effects_goals.
Qed.

(** The same for the whole of a check: fixture, method, fixture. *)
Lemma run_case_effects w name method self s attrs :
  (name, method) ∈ test_methods w →
  heap s !! self = Some (OInstance attrs) →
  ∃ s' attrs',
    run_case (FTT w) name method self s =
      (s', Ok (case_outcome w (ticks s) name)) ∧
    class_attrs s' = class_attrs s ∧
    log s' = log s ++ [EStartTest name; EStopTest name] ∧
    heap s' !! self = Some (OInstance attrs') ∧
    attrs' !! "feedback_entry" = Some (VScalar SNone) ∧
    (∀ l' o, l' ≠ self → heap s !! l' = Some o → heap s' !! l' = Some o) ∧
    ticks s' = (case_ticks name + ticks s)%nat.
Proof.
  intros Hin Hself.
  destruct (run_case_run w name method self s attrs Hself)
    as (l & s1 & Hl & Hrun & Hs1 & Hrec & Hrest & Hca & Ht & Hlog & Hcase).
  destruct (method_effects w name method Hin self s1)
    as (s2 & r & attrs2 & Hm & Hca2 & Hlog2 & Hself2 & Hkeep & Ht2 & Hr).
  { exists (<["feedback_entry":=VRef l]> attrs), l.
    split; [done|]. split; [by rewrite lookup_insert_eq|done]. }
  rewrite (Hcase s2 r attrs2 Hm Hself2), Hr, Ht.
  do 2 eexists. split; [done|]. simpl.
  rewrite Hca2, Hlog2, Hca, Hlog, Ht2, Ht, <- app_assoc.
  repeat (split; [done|]). split; [apply lookup_insert_eq|].
  split; [apply lookup_insert_eq|]. split; [|done].
  intros l' o Hne Hl'. rewrite lookup_insert_ne by done.
  apply Hkeep; [done|]. rewrite Hrest; [done| |done]. congruence.
Qed.

(** The loader, from any state: one new, empty instance per method. *)
Lemma make_instances_run ms s :
  ∃ s' ts,
    make_instances ms s = (s', Ok ts) ∧
    ts.*1 = ms ∧
    NoDup ts.*2 ∧
    (∀ self, self ∈ ts.*2 →
       heap s !! self = None ∧
       ∃ attrs, heap s' !! self = Some (OInstance attrs)) ∧
    heap s ⊆ heap s' ∧
    class_attrs s' = class_attrs s ∧ ticks s' = ticks s ∧ log s' = log s.
Proof.
  revert s. induction ms as [|m ms IH]; intros s.
  - exists s, []. simpl. split; [done|]. split; [done|].
    split; [apply NoDup_nil_2|]. split; [|done].
    intros self Hin. by apply elem_of_nil in Hin.
  - simpl. cbv [mbind Py_bind mret Py_ret alloc].
    set (self := fresh (dom (heap s))).
    set (o := OInstance {[ "_testMethodName" := VScalar (SStr m.1) ]}).
    assert (heap s !! self = None) as Hfresh by apply lookup_fresh.
    destruct (IH (State (<[self:=o]> (heap s)) (class_attrs s)
                    (ticks s) (log s)))
      as (s' & ts & -> & Hms & Hnd & Hts & Hsub & Hca & Ht & Hlog).
    simpl in *. exists s', ((m, self) :: ts). split; [done|].
    assert (∃ attrs, heap s' !! self = Some (OInstance attrs)) as Hself.
    { eexists. eapply lookup_weaken; [|done]. apply lookup_insert_eq. }
    split; [by rewrite <- Hms|]. split.
    { simpl. apply NoDup_cons_2; [|done]. intros Hin.
      destruct (Hts self Hin) as [Hnone _].
      by rewrite lookup_insert_eq in Hnone. }
    split.
    { intros self' [->|Hin]%elem_of_cons; [done|].
      destruct (Hts self' Hin) as [Hnone Hsome]. split; [|done].
      apply lookup_insert_None in Hnone. tauto. }
    split; [|done].
    etrans; [|done]. by apply insert_subseteq.
Qed.

(** A list of checks of the class, each on its own instance, runs to the
    end from any state; the objects that are not among these instances
    stay as they were. *)
Lemma run_cases_effects w ts s :
  Forall (λ c, c.1 ∈ test_methods w) ts →
  NoDup ts.*2 →
  (∀ self, self ∈ ts.*2 → ∃ attrs, heap s !! self = Some (OInstance attrs)) →
  ∃ s',
    run_cases (FTT w) ts s = (s', Ok (outcomes w (ticks s) ts.*1.*1)) ∧
    class_attrs s' = class_attrs s ∧
    log s' =
      log s ++ flat_map (λ n, [EStartTest n; EStopTest n]) ts.*1.*1 ∧
    ticks s' = (sum_list (case_ticks <$> ts.*1.*1) + ticks s)%nat ∧
    (∀ l' o, l' ∉ ts.*2 → heap s !! l' = Some o → heap s' !! l' = Some o) ∧
    (∀ self, self ∈ ts.*2 →
       ∃ attrs, heap s' !! self = Some (OInstance attrs) ∧
                attrs !! "feedback_entry" = Some (VScalar SNone)).
Proof.
  revert s. induction ts as [|[[name method] self] ts IH]; intros s Hall Hnd Hinst.
  - exists s. simpl. rewrite app_nil_r. repeat split; try done.
    intros self Hin. by apply elem_of_nil in Hin.
  - apply Forall_cons in Hall as [Hin Hall]. simpl in Hin, Hnd.
    apply NoDup_cons in Hnd as [Hnotin Hnd].
    destruct (Hinst self) as [attrs Hself]; [simpl; left|].
    destruct (run_case_effects w name method self s attrs Hin Hself)
      as (s1 & attrs1 & Hrun & Hca1 & Hlog1 & Hself1 & Hnone1 & Hkeep1 & Ht1).
    destruct (IH s1 Hall Hnd) as (s2 & Hrun2 & Hca2 & Hlog2 & Ht2 & Hkeep2 & Hdown2).
    { intros self' Hin'. destruct (Hinst self') as [attrs' Hself'];
        [simpl; by right|].
      exists attrs'. apply Hkeep1; [|done]. by intros ->. }
    exists s2. simpl. cbv [mbind Py_bind mret Py_ret].
    rewrite Hrun, Hrun2, Ht1. split; [done|].
    rewrite Hca2, Hca1, Hlog2, Hlog1, Ht2, Ht1, <- app_assoc.
    split; [done|]. split; [done|]. split; [simpl; unfold fmap; lia|]. split.
    + intros l' o Hl' Ho. apply not_elem_of_cons in Hl' as [Hne Hl'].
      apply Hkeep2; [done|]. by apply Hkeep1.
    + intros self' [->|Hin']%elem_of_cons; [|by apply Hdown2].
      exists attrs1. split; [|done]. by apply Hkeep2.
Qed.

Lemma loaded_methods w : (getTestCaseNames (FTT w)).*1 = check_names.
Proof. vm_compute. reflexivity. Qed.

Lemma outcomes_check_names w t :
  outcomes w t check_names =
    [("test_add_feedback", []); ("test_database_integration", []);
     ("test_feedback_retrieval", []);
     ("test_feedback_submission_time",
      if PrimFloat.ltb (PrimFloat.sub (clock w (S t)) (clock w t)) 0.5%float
      then [] else [AssertionError]);
     ("test_previous_bug_fix", []); ("test_remove_feedback", []);
     ("test_sql_injection_protection", []);
     ("test_system_compatibility",
      if version_ok w then [] else [AssertionError])].
Proof. reflexivity. Qed.

(** The whole suite, from any state. *)
Lemma run_suite_effects w s :
  ∃ s',
    run_suite (FTT w) s = (s', Ok (outcomes w (ticks s) check_names)) ∧
    heap s ⊆ heap s' ∧
    class_attrs s' !! "database_connection" = Some (VScalar SNone) ∧
    ticks s' = (2 + ticks s)%nat.
Proof.
  unfold run_suite, loadTestsFromTestCase.
  destruct (make_instances_run (getTestCaseNames (FTT w)) s)
    as (s0 & ts & Hload & Hms & Hnd & Hts & Hsub & Hca0 & Ht0 & Hlog0).
  assert (ts.*1.*1 = check_names) as Hnames
    by (by rewrite Hms, loaded_methods).
  cbv [mbind Py_bind mret Py_ret]. rewrite Hload.
  destruct ts as [|c ts']; [done|]. set (ts := c :: ts') in *.
  cbv [try FTT cls_setUpClass cls_tearDownClass setUpClass tearDownClass
       class_setattr].
  set (s1 := State (heap s0)
               (<["database_connection":=
                    VScalar (SStr "Mock Database Connection")]>
                  (class_attrs s0)) (ticks s0)
               (log s0 ++
                [EClassWrite "database_connection"
                   (SStr "Mock Database Connection")])).
  destruct (run_cases_effects w ts s1)
    as (s2 & Hrun & Hca2 & Hlog2 & Ht2 & Hkeep & _).
  { apply Forall_forall. intros c' Hc'.
    assert (c'.1 ∈ ts.*1) as Hc1 by (by apply list_elem_of_fmap_2).
    rewrite Hms, (getTestCaseNames_perm (FTT w)) in Hc1. exact Hc1. }
  { done. }
  { intros self Hin. by apply Hts. }
  change (run_cases _ ts s1) with (run_cases (FTT w) ts s1).
  rewrite Hrun. eexists. split.
  { rewrite Hnames, app_nil_r. simpl. rewrite Ht0. reflexivity. }
  simpl. split; [|split; [apply lookup_insert_eq|]].
  - apply map_subseteq_spec. intros l o Hl. apply Hkeep.
    + intros Hin. destruct (Hts l Hin) as [Hnone _]. congruence.
    + by eapply lookup_weaken.
  - rewrite Ht2, Hnames. simpl. by rewrite Ht0.
Qed.

(** ** Beyond the claims: the checks one by one *)



(** X2.  The compatibility check leaves the state as it is and never
    raises anything but [AssertionError]: it returns normally exactly
    when the interpreter is 3.6 or later, that is when the major version
    is above 3 or is 3 with a minor version of at least 6, whatever the
    micro version, release level and serial are. *)
Theorem compatibility_check_outcome w s self :
  (test_system_compatibility w self s).1 = s ∧
  ((test_system_compatibility w self s).2 = Ok tt ↔
   3 < version_major w ∨ (version_major w = 3 ∧ 6 ≤ version_minor w)) ∧
  ((test_system_compatibility w self s).2 = Raise AssertionError ↔
   version_major w < 3 ∨ (version_major w = 3 ∧ version_minor w < 6)).
Proof.
  rewrite test_system_compatibility_run. unfold version_ok.
  split; [done|].
  repeat case_bool_decide; simpl; split; split; intros ?;
    first [done | lia | exfalso; lia].
Qed.

Lemma compatibility_check_outcome_witness :
  (test_system_compatibility fast_world 1%positive initial_state).2 = Ok tt ∧
  (test_system_compatibility old_python_world 1%positive initial_state).2 =
    Raise AssertionError.
Proof.
  split.
  - apply (proj1 (proj2 (compatibility_check_outcome fast_world
                           initial_state 1%positive))).
    right. split; [reflexivity|discriminate].
  - apply (proj2 (proj2 (compatibility_check_outcome old_python_world
                           initial_state 1%positive))).
    right. split; reflexivity.
Defined.

(** X3.  The field-integrity check on a record whose fields hold [None],
    [bool], [int] or [str] values, the values a record has in this
    model: it leaves the state as it is; it raises [KeyError] when the
    record has no [course] field, returns normally when the field is the
    string ["CS101"], and raises [AssertionError] for every other such
    value of the field. *)
Theorem field_integrity_check_on_a_record s self attrs l d :
  heap s !! self = Some (OInstance attrs) →
  attrs !! "feedback_entry" = Some (VRef l) →
  heap s !! l = Some (ODict d) →
  test_add_feedback self s =
    (s, match d !! "course" with
        | None => Raise KeyError
        | Some c =>
            if decide (c = SStr "CS101") then Ok tt
            else Raise AssertionError
        end).
Proof.
  intros Hself Hattr Hl. destruct s as [h ca t lg]. simpl in Hself, Hl.
  unfold test_add_feedback. py_run.
  destruct (d !! "course") as [c|]; [|done]. simpl.
  destruct (decide (c = SStr "CS101")) as [->|Hne]; [done|].
  destruct c as [|b|z|c]; try done. simpl.
  rewrite bool_decide_eq_false_2; [done|]. by intros ->.
Qed.

Lemma field_integrity_check_on_a_record_witness :
  heap other_course_instance !! 1%positive =
    Some (OInstance {[ "feedback_entry" := VRef 2 ]}) ∧
  heap other_course_instance !! 2%positive =
    Some (ODict {[ "course" := SStr "MA201" ]}) ∧
  test_add_feedback 1%positive other_course_instance =
    (other_course_instance, Raise AssertionError).
Proof.
  split; [vm_compute; reflexivity|]. split; [vm_compute; reflexivity|].
  etrans;
    [apply (field_integrity_check_on_a_record other_course_instance
              1%positive {[ "feedback_entry" := VRef 2 ]} 2%positive
              {[ "course" := SStr "MA201" ]})|];
    vm_compute; reflexivity.
Defined.

(** X4.  The field-integrity check without its fixture: on an instance
    that [tearDown] has been through it raises [TypeError], since [None]
    has no subscript; on an instance that never had the attribute, in a
    class that has none of that name either, it raises [AttributeError].
    Neither is an assertion failure. *)
Theorem field_integrity_check_without_fixture s self attrs :
  heap s !! self = Some (OInstance attrs) →
  (∃ s', (tearDown self;; test_add_feedback self) s = (s', Raise TypeError)) ∧
  (attrs !! "feedback_entry" = None →
   class_attrs s !! "feedback_entry" = None →
   test_add_feedback self s = (s, Raise AttributeError)).
Proof.
  intros Hself. destruct s as [h ca t lg]. simpl in Hself. split.
  - unfold tearDown, test_add_feedback. py_run. by eexists.
  - simpl. intros Hnone Hcls. unfold test_add_feedback. py_run.
    by rewrite Hnone, Hcls.
Qed.

Lemma field_integrity_check_without_fixture_witness :
  heap one_instance !! 1%positive = Some (OInstance ∅) ∧
  (∃ s', (tearDown 1%positive;; test_add_feedback 1%positive) one_instance =
           (s', Raise TypeError)) ∧
  test_add_feedback 1%positive one_instance =
    (one_instance, Raise AttributeError).
Proof.
  split; [vm_compute; reflexivity|].
  destruct (field_integrity_check_without_fixture one_instance 1%positive ∅)
    as [Hdown Hmissing]; [vm_compute; reflexivity|].
  split; [exact Hdown|]. apply Hmissing; vm_compute; reflexivity.
Defined.



(** ** Beyond the claims: the checks in the runner *)

(** X7.  A check changes no object but its own instance: whatever state
    it starts from, every other object that was there, the instances of
    the other checks among them, is there unchanged when the check has
    stopped, and its own instance ends with [feedback_entry] at [None]. *)
Theorem check_changes_only_its_instance w name method self s attrs :
  (name, method) ∈ test_methods w →
  heap s !! self = Some (OInstance attrs) →
  ∃ s' problems attrs',
    run_case (FTT w) name method self s = (s', Ok problems) ∧
    (∀ l' o, l' ≠ self → heap s !! l' = Some o → heap s' !! l' = Some o) ∧
    heap s' !! self = Some (OInstance attrs') ∧
    attrs' !! "feedback_entry" = Some (VScalar SNone).
Proof.
  intros Hin Hself.
  destruct (run_case_effects w name method self s attrs Hin Hself)
    as (s' & attrs' & Hrun & _ & _ & Hself' & Hnone & Hkeep & _).
  by exists s', (case_outcome w (ticks s) name), attrs'.
Qed.

Lemma check_changes_only_its_instance_witness :
  ("test_remove_feedback", test_remove_feedback) ∈ test_methods fast_world ∧
  heap other_course_instance !! 1%positive =
    Some (OInstance {[ "feedback_entry" := VRef 2 ]}) ∧
  ∃ s' problems attrs',
    run_case (FTT fast_world) "test_remove_feedback" test_remove_feedback
      1%positive other_course_instance = (s', Ok problems) ∧
    (∀ l' o, l' ≠ 1%positive →
       heap other_course_instance !! l' = Some o → heap s' !! l' = Some o) ∧
    heap s' !! 1%positive = Some (OInstance attrs') ∧
    attrs' !! "feedback_entry" = Some (VScalar SNone).
Proof.
  assert (("test_remove_feedback", test_remove_feedback)
            ∈ test_methods fast_world) as Hin
    by (unfold test_methods; set_solver).
  assert (heap other_course_instance !! 1%positive =
            Some (OInstance {[ "feedback_entry" := VRef 2 ]})) as Hself
    by (vm_compute; reflexivity).
  split; [exact Hin|]. split; [exact Hself|].
  exact (check_changes_only_its_instance fast_world "test_remove_feedback"
           test_remove_feedback 1%positive other_course_instance _ Hin Hself).
Defined.

(** X8.  Six of the eight checks cannot fail: whatever state the runner
    starts them from, every check but the latency and the compatibility
    check stops with nothing raised, neither by its method nor by its
    fixture. *)
Theorem check_without_world_cannot_fail w name method self s attrs :
  (name, method) ∈ test_methods w →
  name ≠ "test_feedback_submission_time" →
  name ≠ "test_system_compatibility" →
  heap s !! self = Some (OInstance attrs) →
  ∃ s', run_case (FTT w) name method self s = (s', Ok []).
Proof.
  intros Hin Hlat Hver Hself.
  destruct (run_case_effects w name method self s attrs Hin Hself)
    as (s' & _ & Hrun & _).
  exists s'. rewrite Hrun. unfold case_outcome.
  by rewrite !bool_decide_eq_false_2.
Qed.

Lemma check_without_world_cannot_fail_witness :
  ("test_add_feedback", test_add_feedback) ∈ test_methods slow_world ∧
  "test_add_feedback" ≠ "test_feedback_submission_time" ∧
  "test_add_feedback" ≠ "test_system_compatibility" ∧
  heap one_instance !! 1%positive = Some (OInstance ∅) ∧
  ∃ s', run_case (FTT slow_world) "test_add_feedback" test_add_feedback
          1%positive one_instance = (s', Ok []).
Proof.
  assert (("test_add_feedback", test_add_feedback) ∈ test_methods slow_world)
    as Hin by (unfold test_methods; set_solver).
  assert ("test_add_feedback" ≠ "test_feedback_submission_time") as H1
    by discriminate.
  assert ("test_add_feedback" ≠ "test_system_compatibility") as H2
    by discriminate.
  assert (heap one_instance !! 1%positive = Some (OInstance ∅)) as Hself
    by (vm_compute; reflexivity).
  repeat (split; [assumption|]).
  exact (check_without_world_cannot_fail slow_world "test_add_feedback"
           test_add_feedback 1%positive one_instance ∅ Hin H1 H2 Hself).
Defined.

(** X9.  Only the latency check reads the clock, and it reads it twice:
    over any check the number of readings taken grows by two for the
    latency check and not at all for the others, so the two readings the
    latency check compares are consecutive ones. *)
Theorem only_the_latency_check_reads_the_clock w name method self s attrs :
  (name, method) ∈ test_methods w →
  heap s !! self = Some (OInstance attrs) →
  ∃ s' problems,
    run_case (FTT w) name method self s = (s', Ok problems) ∧
    ticks s' =
      if bool_decide (name = "test_feedback_submission_time")
      then S (S (ticks s)) else ticks s.
Proof.
  intros Hin Hself.
  destruct (run_case_effects w name method self s attrs Hin Hself)
    as (s' & _ & Hrun & _ & _ & _ & _ & _ & Ht).
  exists s', (case_outcome w (ticks s) name). split; [done|].
  rewrite Ht. unfold case_ticks. by case_bool_decide.
Qed.

Lemma only_the_latency_check_reads_the_clock_witness :
  ("test_feedback_submission_time", test_feedback_submission_time slow_world)
    ∈ test_methods slow_world ∧
  heap one_instance !! 1%positive = Some (OInstance ∅) ∧
  ∃ s' problems,
    run_case (FTT slow_world) "test_feedback_submission_time"
      (test_feedback_submission_time slow_world) 1%positive one_instance =
      (s', Ok problems) ∧
    ticks s' =
      if bool_decide ("test_feedback_submission_time" =
                      "test_feedback_submission_time")
      then S (S (ticks one_instance)) else ticks one_instance.
Proof.
  assert (("test_feedback_submission_time",
           test_feedback_submission_time slow_world)
            ∈ test_methods slow_world) as Hin
    by (unfold test_methods; set_solver).
  assert (heap one_instance !! 1%positive = Some (OInstance ∅)) as Hself
    by (vm_compute; reflexivity).
  split; [exact Hin|]. split; [exact Hself|].
  exact (only_the_latency_check_reads_the_clock slow_world
           "test_feedback_submission_time"
           (test_feedback_submission_time slow_world) 1%positive
           one_instance ∅ Hin Hself).
Defined.

(** X10.  No check writes to its record: when a method of the class
    starts on the record [setUp] made, the record still holds the
    fixture's three fields when the method has ended, whether it
    returned or raised; the removal check drops the reference, not the
    record. *)
Theorem no_method_mutates_the_record w name method self s attrs l :
  (name, method) ∈ test_methods w →
  heap s !! self = Some (OInstance attrs) →
  attrs !! "feedback_entry" = Some (VRef l) →
  heap s !! l = Some (ODict feedback_fixture) →
  ∃ s' r, method self s = (s', r) ∧
          heap s' !! l = Some (ODict feedback_fixture).
Proof.
  intros Hin Hself Hattr Hl.
  destruct (method_effects w name method Hin self s)
    as (s' & r & _ & Hm & _ & _ & _ & Hkeep & _).
  { by exists attrs, l. }
  exists s', r. split; [done|]. apply Hkeep; [|done]. congruence.
Qed.

Lemma no_method_mutates_the_record_witness :
  ("test_remove_feedback", test_remove_feedback) ∈ test_methods fast_world ∧
  heap ready_instance !! 1%positive =
    Some (OInstance {[ "feedback_entry" := VRef 2 ]}) ∧
  heap ready_instance !! 2%positive = Some (ODict feedback_fixture) ∧
  ∃ s' r, test_remove_feedback 1%positive ready_instance = (s', r) ∧
          heap s' !! 2%positive = Some (ODict feedback_fixture).
Proof.
  assert (("test_remove_feedback", test_remove_feedback)
            ∈ test_methods fast_world) as Hin
    by (unfold test_methods; set_solver).
  assert (heap ready_instance !! 1%positive =
            Some (OInstance {[ "feedback_entry" := VRef 2 ]})) as Hself
    by (vm_compute; reflexivity).
  assert (heap ready_instance !! 2%positive = Some (ODict feedback_fixture))
    as Hrec by (vm_compute; reflexivity).
  repeat (split; [assumption|]).
  apply (no_method_mutates_the_record fast_world "test_remove_feedback"
           test_remove_feedback 1%positive ready_instance
           {[ "feedback_entry" := VRef 2 ]} 2%positive Hin Hself);
    [vm_compute; reflexivity|exact Hrec].
Defined.

(** X11.  The run does not depend on the state it starts in.  From any
    state, with whatever objects and class attributes are around and
    whatever number of clock readings already taken, the entry point
    runs the eight checks to the end in the order of their names; the
    six that cannot fail report nothing, the latency check fails exactly
    when the binary64 difference of the next two clock readings is not
    below 0.5, the compatibility check exactly when the interpreter is
    older than 3.6.  The run leaves every object it found as it was,
    takes two clock readings, leaves [database_connection] at [None],
    and the exit status is zero exactly when both of the checks that can
    fail hold. *)
Theorem suite_runs_the_same_from_any_state w s :
  ∃ s',
    run_suite (FTT w) s =
      (s', Ok [("test_add_feedback", []);
               ("test_database_integration", []);
               ("test_feedback_retrieval", []);
               ("test_feedback_submission_time",
                if PrimFloat.ltb
                     (PrimFloat.sub (clock w (S (ticks s)))
                        (clock w (ticks s)))
                     0.5%float
                then [] else [AssertionError]);
               ("test_previous_bug_fix", []);
               ("test_remove_feedback", []);
               ("test_sql_injection_protection", []);
               ("test_system_compatibility",
                if version_ok w then [] else [AssertionError])]) ∧
    heap s ⊆ heap s' ∧
    class_attrs s' !! "database_connection" = Some (VScalar SNone) ∧
    ticks s' = S (S (ticks s)) ∧
    ((main w s).2 = 0 ↔
     PrimFloat.ltb
       (PrimFloat.sub (clock w (S (ticks s))) (clock w (ticks s)))
       0.5%float = true ∧
     version_ok w = true).
Proof.
  destruct (run_suite_effects w s) as (s' & Hrun & Hsub & Hca & Ht).
  rewrite outcomes_check_names in Hrun.
  exists s'. split; [exact Hrun|]. split; [exact Hsub|].
  split; [exact Hca|]. split; [exact Ht|].
  unfold main. rewrite Hrun. cbn [snd]. clear.
  destruct (PrimFloat.ltb
              (PrimFloat.sub (clock w (S (ticks s))) (clock w (ticks s)))
              0.5%float),
    (version_ok w); vm_compute;
    (split; [intros H|intros [H1 H2]]);
    first [discriminate | split; reflexivity | reflexivity].
Qed.

Lemma suite_runs_the_same_from_any_state_witness :
  ∃ s',
    (run_suite (FTT slow_world) ready_instance).1 = s' ∧
    heap ready_instance ⊆ heap s' ∧
    ticks s' = 7%nat ∧
    (main slow_world ready_instance).2 ≠ 0.
Proof.
  destruct (suite_runs_the_same_from_any_state slow_world ready_instance)
    as (s' & Hrun & Hsub & _ & Ht & Hexit).
  exists s'. split; [by rewrite Hrun|]. split; [exact Hsub|].
  split; [exact Ht|].
  intros H0. apply Hexit in H0 as [Hlat _]. vm_compute in Hlat.
  discriminate.
Defined.
